(* ===================================================================== *)
(* tbert/cli/run_classifier.py: dataset readers, label vocabulary and    *)
(* the train / eval / predict driver, embedded as Rocq functions.        *)
(* ===================================================================== *)

From Stdlib Require Import ZArith QArith Lia Ascii.
From stdpp Require Import base tactics option list strings pretty gmap.

Local Open Scope string_scope.
Local Open Scope Z_scope.
Local Open Scope list_scope.

(* --------------------------------------------------------------------- *)
(* Python values, exceptions and effects                                 *)
(* --------------------------------------------------------------------- *)

(** The exceptions the script can raise.  [ValueError] carries its message,
    [KeyError] the missing key, [FileNotFoundError] the path handed to
    [open], [NameError] the unbound name, [SystemExit] the exit status
    argparse uses for a rejected command line, and [ExternalError] stands
    for any failure inside a collaborator that is not part of this file
    (tokenizer, encoder, pickle, torch). *)
Inductive exn : Type :=
  | ValueError (msg : string)
  | TypeError (msg : string)
  | KeyError (key : string)
  | IndexError (msg : string)
  | FileNotFoundError (path : string)
  | ZeroDivisionError (msg : string)
  | NameError (name : string)
  | SystemExit (code : Z)
  | ExternalError (what : string).

(** Scalars as Python sees them at run time.  argparse stores the literal
    [default=] object when an option is absent and the raw argument string
    when it is present (no [type=] is given for any option of the script);
    JSON scalars of the configuration file arrive as [int], [float] (its
    exact rational value), [bool], [str] or [None]. *)
Inductive pyval : Type :=
  | PyInt (n : Z)
  | PyFloat (q : Q)
  | PyBool (b : bool)
  | PyStr (s : string)
  | PyNone.

Definition py_type_name (v : pyval) : string :=
  match v with
  | PyInt _ => "int"
  | PyFloat _ => "float"
  | PyBool _ => "bool"
  | PyStr _ => "str"
  | PyNone => "NoneType"
  end.

(** The number a numeric value stands for ([bool] is a subclass of [int]). *)
Definition py_number (v : pyval) : option Q :=
  match v with
  | PyInt n => Some (inject_Z n)
  | PyFloat q => Some q
  | PyBool b => Some (inject_Z (if b then 1 else 0))
  | _ => None
  end.

Definition unsupported (op : string) (a b : pyval) : exn :=
  TypeError ("'" +:+ op +:+ "' not supported between instances of '"
             +:+ py_type_name a +:+ "' and '" +:+ py_type_name b +:+ "'").

(** [a < b] and [a >= b]: numbers by value, strings lexicographically,
    anything else is a [TypeError] in Python 3. *)
Definition py_lt (a b : pyval) : exn + bool :=
  match py_number a, py_number b with
  | Some x, Some y => inr (negb (Qle_bool y x))
  | _, _ =>
      match a, b with
      | PyStr x, PyStr y => inr (String.ltb x y)
      | _, _ => inl (unsupported "<" a b)
      end
  end.

Definition py_ge (a b : pyval) : exn + bool :=
  match py_number a, py_number b with
  | Some x, Some y => inr (Qle_bool y x)
  | _, _ =>
      match a, b with
      | PyStr x, PyStr y => inr (negb (String.ltb x y))
      | _, _ => inl (unsupported ">=" a b)
      end
  end.

(** One call of [open(path, mode)], successful or not. *)
Inductive event : Type :=
  | Open (path mode : string).

(** A computation of the script: the calls of [open] it made, in order, and
    either the exception that ended it or its value. *)
Definition M (A : Type) : Type := (list event * (exn + A))%type.

Definition ret {A} (x : A) : M A := ([], inr x).
Definition raise {A} (e : exn) : M A := ([], inl e).
Definition emit (ev : event) : M unit := ([ev], inr tt).
Definition lift {A} (r : exn + A) : M A := ([], r).

Definition bind {A B} (m : M A) (f : A -> M B) : M B :=
  match m with
  | (t, inl e) => (t, inl e)
  | (t, inr x) => let '(t', r) := f x in (t ++ t', r)
  end.

Notation "'do' x <- m ; k" := (bind m (fun x => k))
  (at level 10, x name, m at level 100, k at level 200).
Notation "'do' ' p <- m ; k" := (bind m (fun x => match x with p => k end))
  (at level 10, p pattern, m at level 100, k at level 200).
Notation "'run' m ; k" := (bind m (fun _ => k))
  (at level 10, m at level 100, k at level 200).

(** A generator run to its end: the calls of [open] it made, the items it
    yielded in order, and the exception that ended it, if any.  Items
    yielded before the exception have already reached the consumer. *)
Record gen (A : Type) : Type := Gen {
  g_trace : list event;
  g_items : list A;
  g_exn : option exn
}.
Arguments Gen {A} _ _ _.
Arguments g_trace {A} _.
Arguments g_items {A} _.
Arguments g_exn {A} _.

(** [list(g)] *)
Definition list_of_gen {A} (g : gen A) : M (list A) :=
  (g_trace g, match g_exn g with Some e => inl e | None => inr (g_items g) end).

(* --------------------------------------------------------------------- *)
(* Strings: repr and f-string formatting                                 *)
(* --------------------------------------------------------------------- *)

Definition hex_digit (n : N) : ascii :=
  match n with
  | 0 => "0" | 1 => "1" | 2 => "2" | 3 => "3" | 4 => "4" | 5 => "5"
  | 6 => "6" | 7 => "7" | 8 => "8" | 9 => "9" | 10 => "a" | 11 => "b"
  | 12 => "c" | 13 => "d" | 14 => "e" | _ => "f"
  end%N%char.

Fixpoint contains_char (c : ascii) (s : string) : bool :=
  match s with
  | EmptyString => false
  | String d s' => if Ascii.eqb c d then true else contains_char c s'
  end.

Definition dquote : ascii := "034"%char.

(** The quote [repr] wraps a string in: double quotes only when the string
    has a single quote and no double quote. *)
Definition repr_quote (s : string) : ascii :=
  if contains_char "'"%char s && negb (contains_char dquote s)
  then dquote else "'"%char.

Definition repr_char (q c : ascii) : string :=
  let n := N_of_ascii c in
  if Ascii.eqb c q || Ascii.eqb c "\"%char then String "\"%char (String c "")
  else if (n =? 9)%N then "\t"
  else if (n =? 10)%N then "\n"
  else if (n =? 13)%N then "\r"
  else if (n <? 32)%N || (n =? 127)%N
       then String "\"%char (String "x"%char
              (String (hex_digit (n / 16)) (String (hex_digit (n mod 16)) "")))
  else String c "".

Fixpoint repr_body (q : ascii) (s : string) : string :=
  match s with
  | EmptyString => ""
  | String c s' => repr_char q c +:+ repr_body q s'
  end.

(** [repr(s)] of a [str], the text [%r] formats.  Bytes above 127 are the
    UTF-8 encoding of non-ASCII characters and are kept as they are, which
    is what [repr] does for printable characters. *)
Definition py_repr (s : string) : string :=
  let q := repr_quote s in
  String q (repr_body q s) +:+ String q "".

(** [str(i)] of a row number. *)
Definition str_of_nat (i : nat) : string := pretty i.

(* --------------------------------------------------------------------- *)
(* Lists, dictionaries and files                                         *)
(* --------------------------------------------------------------------- *)

Notation "'try' x <- e ; k" :=
  (match e with inl err => inl err | inr x => k end)
  (at level 10, x name, e at level 100, k at level 200).

(** [l[k]] for a non-negative constant [k]. *)
Definition py_index {A} (l : list A) (k : nat) : exn + A :=
  match l !! k with
  | Some x => inr x
  | None => inl (IndexError "list index out of range")
  end.

(** [l[-1]] *)
Definition py_last {A} (l : list A) : exn + A :=
  match last l with
  | Some x => inr x
  | None => inl (IndexError "list index out of range")
  end.

(** [d[key]] on a dictionary with string keys. *)
Definition py_getitem {V} (d : gmap string V) (key : string) : exn + V :=
  match d !! key with
  | Some v => inr v
  | None => inl (KeyError key)
  end.

(** The configuration [json.load] returns and the parameters [pickle.load]
    returns: name to scalar, and parameter name to an opaque tensor handle. *)
Abbreviation config := (gmap string pyval).
Abbreviation state_dict := (gmap string nat).

(** A file, through the three parsers the script applies to files: the rows
    [csv.reader(f, delimiter='\t', quotechar=None)] yields, and the objects
    [json.load] and [pickle.load] return ([None] when the parser rejects the
    contents). *)
Record file : Type := File {
  f_rows : list (list string);
  f_json : option config;
  f_pickle : option state_dict
}.

Abbreviation FileSystem := (gmap string file).

(** A file holding tab-separated rows only. *)
Definition tsv (rows : list (list string)) : file := File rows None None.

(** [_read_tsv]: opens the file when first advanced and yields its rows. *)
Definition _read_tsv (fs : FileSystem) (input_file : string) : gen (list string) :=
  match fs !! input_file with
  | None => Gen [Open input_file "r"] [] (Some (FileNotFoundError input_file))
  | Some f => Gen [Open input_file "r"] (f_rows f) None
  end.

(** [for i, x in enumerate(items): body], where the body either raises,
    skips the item ([continue]) or yields one value. *)
Fixpoint for_rows {A B} (body : nat -> A -> exn + option B) (i : nat)
    (items : list A) : list B * option exn :=
  match items with
  | [] => ([], None)
  | x :: rest =>
      match body i x with
      | inl e => ([], Some e)
      | inr None => for_rows body (S i) rest
      | inr (Some y) =>
          let '(ys, e) := for_rows body (S i) rest in (y :: ys, e)
      end
  end.

Definition for_enumerate {A B} (body : nat -> A -> exn + option B)
    (src : gen A) : gen B :=
  let '(ys, e) := for_rows body 0 (g_items src) in
  Gen (g_trace src) ys (match e with Some e' => Some e' | None => g_exn src end).

(* --------------------------------------------------------------------- *)
(* Dataset readers                                                       *)
(* --------------------------------------------------------------------- *)

(** What a reader yields: [guid, text_a, text_b, label_vocab[label]]. *)
Record example : Type := Example {
  guid : string;
  text_a : string;
  text_b : option string;
  label_id : nat
}.

Definition no_such_partition (partition : string) : exn :=
  ValueError ("no such partition in this dataset: " +:+ py_repr partition).

Definition _xnli_reader (fs : FileSystem) (data_dir : string)
    (label_vocab : gmap string nat) (partition lang : string) : gen example :=
  if decide (partition = "train") then
    for_enumerate (fun i line =>
      if decide (i = 0%nat) then inr None else
      let guid := partition +:+ "-" +:+ str_of_nat i in
      try text_a <- py_index line 0;
      try text_b <- py_index line 1;
      try label <- py_index line 2;
      let label :=
        if decide (label = "contradictory") then "contradiction" else label in
      try id <- py_getitem label_vocab label;
      inr (Some (Example guid text_a (Some text_b) id)))
    (_read_tsv fs (data_dir +:+ "/multinli/multinli.train." +:+ lang +:+ ".tsv"))
  else if decide (partition = "dev") then
    for_enumerate (fun i line =>
      if decide (i = 0%nat) then inr None else
      let guid := partition +:+ "-" +:+ str_of_nat i in
      try tag <- py_index line 0;
      if decide (tag <> lang) then inr None else
      try text_a <- py_index line 6;
      try text_b <- py_index line 7;
      try label <- py_index line 1;
      try id <- py_getitem label_vocab label;
      inr (Some (Example guid text_a (Some text_b) id)))
    (_read_tsv fs (data_dir +:+ "/xnli.dev.tsv"))
  else
    Gen [] [] (Some (no_such_partition partition)).

Definition _mnli_reader (fs : FileSystem) (data_dir : string)
    (label_vocab : gmap string nat) (partition : string) : gen example :=
  let fname :=
    ({[ "train" := data_dir +:+ "/train.tsv";
        "dev" := data_dir +:+ "/dev_matched.tsv";
        "test" := data_dir +:+ "/test_matched.tsv" ]} : gmap string string)
      !! partition in
  match fname with
  | None => Gen [] [] (Some (no_such_partition partition))
  | Some fname =>
      for_enumerate (fun i line =>
        if decide (i = 0%nat) then inr None else
        try row_id <- py_index line 0;
        let giud := partition +:+ "-" +:+ row_id in
        try text_a <- py_index line 8;
        try text_b <- py_index line 9;
        try label <-
          (if decide (partition = "test") then inr "contradiction"
           else py_last line);
        try id <- py_getitem label_vocab label;
        inr (Some (Example giud text_a (Some text_b) id)))
      (_read_tsv fs fname)
  end.

Definition _mrpc_reader (fs : FileSystem) (data_dir : string)
    (label_vocab : gmap string nat) (partition : string) : gen example :=
  let fname :=
    ({[ "train" := data_dir +:+ "/train.tsv";
        "dev" := data_dir +:+ "/dev.tsv";
        "test" := data_dir +:+ "/test.tsv" ]} : gmap string string)
      !! partition in
  match fname with
  | None => Gen [] [] (Some (no_such_partition partition))
  | Some fname =>
      for_enumerate (fun i line =>
        if decide (i = 0%nat) then inr None else
        let giud := partition +:+ "-" +:+ str_of_nat i in
        try text_a <- py_index line 3;
        try text_b <- py_index line 4;
        try label <-
          (if decide (partition = "test") then inr "0" else py_index line 0);
        try id <- py_getitem label_vocab label;
        inr (Some (Example giud text_a (Some text_b) id)))
      (_read_tsv fs fname)
  end.

Definition _cola_reader (fs : FileSystem) (data_dir : string)
    (label_vocab : gmap string nat) (partition : string) : gen example :=
  let fname :=
    ({[ "train" := data_dir +:+ "/train.tsv";
        "dev" := data_dir +:+ "/dev.tsv";
        "test" := data_dir +:+ "/test.tsv" ]} : gmap string string)
      !! partition in
  match fname with
  | None => Gen [] [] (Some (no_such_partition partition))
  | Some fname =>
      for_enumerate (fun i line =>
        if decide (partition = "test" /\ i = 0%nat) then inr None else
        let giud := partition +:+ "-" +:+ str_of_nat i in
        try label_text <-
          (if decide (partition = "test")
           then try text_a <- py_index line 1; inr ("0", text_a)
           else try label <- py_index line 1;
                try text_a <- py_index line 3; inr (label, text_a));
        try id <- py_getitem label_vocab (fst label_text);
        inr (Some (Example giud (snd label_text) None id)))
      (_read_tsv fs fname)
  end.

(* --------------------------------------------------------------------- *)
(* The problem registry and the label vocabulary                         *)
(* --------------------------------------------------------------------- *)

(** An entry of [_PROBLEMS]; [reader] is called by the driver as
    [reader(data_dir, label_vocab, partition=...)]. *)
Record problem_entry : Type := Problem {
  labels : list string;
  reader : FileSystem -> string -> gmap string nat -> string -> gen example
}.

Definition _PROBLEMS : gmap string problem_entry :=
  {[ "xnli" := Problem ["contradiction"; "entailment"; "neutral"]
                 (fun fs data_dir label_vocab partition =>
                    _xnli_reader fs data_dir label_vocab partition "zh");
     "mnli" := Problem ["contradiction"; "entailment"; "neutral"] _mnli_reader;
     "mrpc" := Problem ["0"; "1"] _mrpc_reader;
     "cola" := Problem ["0"; "1"] _cola_reader ]}.

(** [{label: i for i, label in enumerate(labels)}]: entries are stored in
    order, a later one replacing an earlier one with the same key. *)
Definition label_vocab_of (labels : list string) : gmap string nat :=
  foldl (fun d il => <[il.2 := il.1]> d) ∅ (imap pair labels).

(* --------------------------------------------------------------------- *)
(* Command line                                                          *)
(* --------------------------------------------------------------------- *)

(** What the user typed: both positional arguments, and for every option
    the argument string given for it, if the option was given at all. *)
Record CommandLine : Type := {
  cl_pretrained_dir : string;
  cl_output_dir : string;
  cl_batch_size : option string;
  cl_max_seq_length : option string;
  cl_do_lower_case : option string;
  cl_problem : option string;
  cl_data_dir : option string;
  cl_do_train : bool;
  cl_do_eval : bool;
  cl_do_predict : bool;
  cl_learning_rate : option string;
  cl_num_train_epochs : option string;
  cl_macro_batch : option string
}.

(** The namespace [parser.parse_args()] returns. *)
Record Args : Type := {
  pretrained_dir : string;
  output_dir : string;
  batch_size : pyval;
  max_seq_length : pyval;
  do_lower_case : pyval;
  problem : string;
  data_dir : string;
  do_train : bool;
  do_eval : bool;
  do_predict : bool;
  learning_rate : pyval;
  num_train_epochs : pyval;
  macro_batch : pyval
}.

(** An option declared with [default=d] and no [type=]: the default object
    itself when absent, the argument string when present. *)
Definition optional (given : option string) (default : pyval) : pyval :=
  match given with
  | Some s => PyStr s
  | None => default
  end.

Definition choices : list string := ["cola"; "mnli"; "mrpc"; "xnli"].

(** [parser.parse_args()]: a missing required option or a [--problem]
    outside [choices] makes argparse exit with status 2. *)
Definition parse_args (cl : CommandLine) : exn + Args :=
  match cl_problem cl, cl_data_dir cl with
  | Some p, Some d =>
      if decide (p ∈ choices) then
        inr {| pretrained_dir := cl_pretrained_dir cl;
               output_dir := cl_output_dir cl;
               batch_size := optional (cl_batch_size cl) (PyInt 32);
               max_seq_length := optional (cl_max_seq_length cl) (PyInt 128);
               do_lower_case := optional (cl_do_lower_case cl) (PyBool true);
               problem := p;
               data_dir := d;
               do_train := cl_do_train cl;
               do_eval := cl_do_eval cl;
               do_predict := cl_do_predict cl;
               learning_rate :=
                 optional (cl_learning_rate cl) (PyFloat (2 # 100000));
               num_train_epochs := optional (cl_num_train_epochs cl) (PyInt 3);
               macro_batch := optional (cl_macro_batch cl) (PyInt 1) |}
      else inl (SystemExit 2)
  | _, _ => inl (SystemExit 2)
  end.

(* --------------------------------------------------------------------- *)
(* Feature records and the collaborators outside this file               *)
(* --------------------------------------------------------------------- *)

(** The dictionary [feats_reader] yields. *)
Record feats : Type := Feats {
  input_ids : list Z;
  input_type_ids : list Z;
  input_mask : list Z;
  feats_label_id : nat;
  feats_guid : string
}.

(** What [example_to_feats] returns, before [label_id] and [guid] are added. *)
Record encoding : Type := Encoding {
  enc_input_ids : list Z;
  enc_input_type_ids : list Z;
  enc_input_mask : list Z
}.

(** The modules the script imports and does not define: the tokenizer, the
    feature encoder, the encoder network with its parameters, pickle and
    torch.  Each is an arbitrary function of what the script hands it;
    floating-point results are held as the rationals they denote.
    [fit m updates] is the classifier after the optimizer updates
    [updates], each made on the summed gradients of the listed
    micro-batches.  [Adam m lr] is how the construction of the optimizer
    ends (torch checks the learning rate it is given), and
    [pickle_dump fs path m] how writing [m] to [path] ends once
    [open(path, 'wb')] has been called: the directory may be missing or
    the dump may fail. *)
Class Collaborators : Type := {
  Tokenizer : Type;
  Model : Type;
  FullTokenizer : FileSystem -> string -> pyval -> M Tokenizer;
  example_to_feats :
    string -> option string -> pyval -> Tokenizer -> exn + encoding;
  BertClassifier : config -> nat -> exn + Model;
  load_bert : Model -> state_dict -> exn + Model;
  load_pooler : Model -> state_dict -> exn + Model;
  load_state_dict : Model -> state_dict -> exn + Model;
  DataLoader : list feats -> pyval -> exn + (nat -> list (list feats));
  Adam : Model -> pyval -> exn + unit;
  pickle_dump : FileSystem -> string -> Model -> exn + unit;
  fit : Model -> list (list (list feats)) -> Model;
  batcher : gen feats -> pyval -> gen (list feats);
  log_probs : Model -> feats -> list Q;
  softmax : Model -> feats -> list Q
}.

(* --------------------------------------------------------------------- *)
(* Training loop                                                         *)
(* --------------------------------------------------------------------- *)

(** The state the training loop threads.  [grad] lists the micro-batches
    whose gradients are summed in the parameters' gradient buffers since
    the last [opt.zero_grad()]; [steps] lists the calls of [opt.step()],
    each with the micro-batches whose summed gradient it applied; [epochs]
    lists the values [epoch] has taken. *)
Record train_state (B : Type) : Type := TrainState {
  batch_count : Z;
  grad : list B;
  steps : list (list B);
  epochs : list nat
}.
Arguments TrainState {B} _ _ _ _.
Arguments batch_count {B} _.
Arguments grad {B} _.
Arguments steps {B} _.
Arguments epochs {B} _.

Definition train_init {B} : train_state B := TrainState 0 [] [] [].

(** [for x in items: st = body(st, x)], stopping at the first exception. *)
Fixpoint for_each {S A} (body : S -> A -> exn + S) (st : S) (items : list A)
    : exn + S :=
  match items with
  | [] => inr st
  | x :: rest => try st' <- body st x; for_each body st' rest
  end.

(** The body of [for sample in dataloader]. *)
Definition micro_batch {B} (macro_batch : pyval) (st : train_state B)
    (sample : B) : exn + train_state B :=
  (* if batch_count == 0: opt.zero_grad() *)
  let g := if decide (batch_count st = 0) then [] else grad st in
  (* loss.backward() *)
  let g := g ++ [sample] in
  (* batch_count += 1 *)
  let c := batch_count st + 1 in
  try full <- py_ge (PyInt c) macro_batch;
  if (full : bool)
  then inr (TrainState 0 g (steps st ++ [g]) (epochs st))   (* opt.step() *)
  else inr (TrainState c g (steps st) (epochs st)).

(** The body of [for epoch in range(3)]. *)
Definition epoch_loop {B} (macro_batch : pyval) (dataloader : nat -> list B)
    (st : train_state B) (epoch : nat) : exn + train_state B :=
  for_each (micro_batch macro_batch)
    (TrainState 0 (grad st) (steps st) (epochs st ++ [epoch]))
    (dataloader epoch).

(** [for epoch in range(3): ...]; [dataloader epoch] is the sequence of
    micro-batches the shuffling loader produces on its [epoch]-th pass. *)
Definition train_loop {B} (macro_batch : pyval) (dataloader : nat -> list B)
    : exn + train_state B :=
  for_each (epoch_loop macro_batch dataloader) train_init (seq 0 3).

(* --------------------------------------------------------------------- *)
(* Evaluation loop                                                       *)
(* --------------------------------------------------------------------- *)

Local Open Scope Q_scope.

(** [torch.argmax] of one row: the position of the first largest entry. *)
Fixpoint argmax_from (best_i : nat) (best : Q) (i : nat) (row : list Q) : nat :=
  match row with
  | [] => best_i
  | x :: rest =>
      if Qle_bool x best then argmax_from best_i best (S i) rest
      else argmax_from i x (S i) rest
  end.

Definition argmax (row : list Q) : nat :=
  match row with
  | [] => 0%nat
  | x :: rest => argmax_from 0 x 1 rest
  end.

Definition Qsum (l : list Q) : Q := foldr Qplus 0 l.

(** The variables of the evaluation block; [hits] is unbound until the
    first batch has been processed. *)
Record eval_state : Type := EvalState {
  total_loss : Q;
  total_samples : Z;
  total_hits : Z;
  hits : option Z
}.

Definition eval_init : eval_state := EvalState 0 0 0 None.

(** [F.nll_loss(log_probs, label_id, reduction='sum')] of one batch, where
    [score x] is the row of log-probabilities the classifier gives [x]
    (label ids come from the vocabulary, whose size is the number of
    classes, so the row has an entry for them). *)
Definition batch_loss (score : feats -> list Q) (b : list feats) : Q :=
  Qsum (map (fun x => - nth (feats_label_id x) (score x) 0) b).

(** [(label_id == torch.argmax(log_probs, dim=-1)).sum()] of one batch. *)
Definition batch_hits (score : feats -> list Q) (b : list feats) : Z :=
  Z.of_nat (length (filter (fun x => feats_label_id x = argmax (score x)) b)).

(** The body of [for b in batcher(reader, ...)]. *)
Definition eval_batch (score : feats -> list Q) (st : eval_state)
    (b : list feats) : eval_state :=
  let loss := batch_loss score b in
  let hits := batch_hits score b in
  EvalState (total_loss st + loss)
            (total_samples st + Z.of_nat (length b))%Z
            (total_hits st + hits)%Z
            (Some hits).

Definition eval_loop (score : feats -> list Q) (batches : list (list feats))
    : eval_state :=
  foldl (eval_batch score) eval_init batches.

(** The three numbers printed after the loop. *)
Record eval_report : Type := EvalReport {
  samples_evaluated : Z;
  average_loss : Q;
  accuracy : Q
}.

(** The final prints: [total_samples], [total_loss / total_samples] and
    [hits / total_samples]. *)
Definition eval_summary (st : eval_state) : exn + eval_report :=
  if decide (total_samples st = 0%Z)
  then inl (ZeroDivisionError "float division by zero")
  else match hits st with
       | None => inl (NameError "hits")
       | Some h =>
           inr (EvalReport (total_samples st)
                  (total_loss st / inject_Z (total_samples st))
                  (inject_Z h / inject_Z (total_samples st)))
       end.

Local Close Scope Q_scope.

(* --------------------------------------------------------------------- *)
(* The driver                                                            *)
(* --------------------------------------------------------------------- *)

Section Driver.
Context `{Collaborators}.

(** [feats_reader]: one feature dictionary per example, in order. *)
Definition feats_reader (reader : gen example) (seq_length : pyval)
    (tokenizer : Tokenizer) : gen feats :=
  for_enumerate (fun _ ex =>
    try enc <- example_to_feats (text_a ex) (text_b ex) seq_length tokenizer;
    inr (Some (Feats (enc_input_ids enc) (enc_input_type_ids enc)
                 (enc_input_mask enc) (label_id ex) (guid ex))))
  reader.

(** [with open(path, 'r') as f: json.load(f)] *)
Definition open_json (fs : FileSystem) (path : string) : M config :=
  run emit (Open path "r");
  match fs !! path with
  | None => raise (FileNotFoundError path)
  | Some f =>
      match f_json f with
      | None => raise (ExternalError "json.load")
      | Some c => ret c
      end
  end.

(** [with open(path, 'rb') as f: pickle.load(f)] *)
Definition open_pickle (fs : FileSystem) (path : string) : M state_dict :=
  run emit (Open path "rb");
  match fs !! path with
  | None => raise (FileNotFoundError path)
  | Some f =>
      match f_pickle f with
      | None => raise (ExternalError "pickle.load")
      | Some sd => ret sd
      end
  end.

(** [BertClassifier.load_pretrained] *)
Definition load_pretrained (fs : FileSystem) (classifier : Model)
    (dir_name : string) : M Model :=
  let loc s := dir_name +:+ "/" +:+ s in
  do sd <- open_pickle fs (loc "bert_model.pickle");
  do classifier <- lift (load_bert classifier sd);
  do sd <- open_pickle fs (loc "pooler_model.pickle");
  lift (load_pooler classifier sd).

Definition seq_length_error : exn :=
  ValueError ("max_seq_length parameter can not exceed config["
              +:+ String dquote "max_position_embeddings"
              +:+ String dquote "]").

(** [if config['max_position_embeddings'] < args.max_seq_length: raise] *)
Definition check_seq_length (config : config) (args : Args) : exn + unit :=
  try limit <- py_getitem config "max_position_embeddings";
  try too_long <- py_lt limit (max_seq_length args);
  if (too_long : bool) then inl seq_length_error else inr tt.

(** Everything the stages share once start-up is over. *)
Record session : Type := Session {
  s_args : Args;
  s_label_vocab : gmap string nat;
  s_reader : FileSystem -> string -> gmap string nat -> string -> gen example;
  s_config : config;
  s_tokenizer : Tokenizer;
  s_classifier : Model
}.

(** From [parse_args] to [classifier.to(device)]. *)
Definition startup (cl : CommandLine) (fs : FileSystem) : M session :=
  do args <- lift (parse_args cl);
  do problem <- lift (py_getitem _PROBLEMS (problem args));
  let label_vocab := label_vocab_of (labels problem) in
  let problem_reader := reader problem in
  let inp s := pretrained_dir args +:+ "/" +:+ s in
  do config <- open_json fs (inp "bert_config.json");
  run lift (check_seq_length config args);
  do tokenizer <- FullTokenizer fs (inp "vocab.txt") (do_lower_case args);
  do classifier <- lift (BertClassifier config (size label_vocab));
  do classifier <- load_pretrained fs classifier (pretrained_dir args);
  ret (Session args label_vocab problem_reader config tokenizer classifier).

Definition classifier_pickle (args : Args) : string :=
  output_dir args +:+ "/bert_classifier.pickle".

(** The [if args.do_train:] branch. *)
Definition train_stage (s : session) (fs : FileSystem)
    : M (Model * train_state (list feats)) :=
  let args := s_args s in
  do samples <- list_of_gen
    (feats_reader (s_reader s fs (data_dir args) (s_label_vocab s) "train")
       (max_seq_length args) (s_tokenizer s));
  do dataloader <- lift (DataLoader samples (batch_size args));
  run lift (Adam (s_classifier s) (learning_rate args));
  do st <- lift (train_loop (macro_batch args) dataloader);
  let trained := fit (s_classifier s) (steps st) in
  run emit (Open (classifier_pickle args) "wb");
  run lift (pickle_dump fs (classifier_pickle args) trained);
  ret (trained, st).

(** The [else:] branch: load the trained classifier. *)
Definition load_trained (s : session) (fs : FileSystem) : M Model :=
  do sd <- open_pickle fs (classifier_pickle (s_args s));
  lift (load_state_dict (s_classifier s) sd).

(** [for b in batcher(reader, ...)]: the reader is advanced by the
    batcher, the body runs on each batch, and an exception of the reader
    ends the loop. *)
Definition for_batches {A} (batches : gen (list feats))
    (body : list (list feats) -> exn + A) : M A :=
  (g_trace batches,
   match g_exn batches with
   | Some e => inl e
   | None => body (g_items batches)
   end).

(** The [if args.do_eval:] block. *)
Definition eval_stage (s : session) (fs : FileSystem) (classifier : Model)
    : M eval_report :=
  let args := s_args s in
  let reader :=
    feats_reader (s_reader s fs (data_dir args) (s_label_vocab s) "dev")
      (max_seq_length args) (s_tokenizer s) in
  for_batches (batcher reader (batch_size args))
    (fun bs => eval_summary (eval_loop (log_probs classifier) bs)).

(** The [if args.do_predict:] block: the lines written to
    [test_results.tsv], one row of class probabilities per sample. *)
Definition predict_stage (s : session) (fs : FileSystem) (classifier : Model)
    : M (list (list Q)) :=
  let args := s_args s in
  let reader :=
    feats_reader (s_reader s fs (data_dir args) (s_label_vocab s) "test")
      (max_seq_length args) (s_tokenizer s) in
  run emit (Open (output_dir args +:+ "/test_results.tsv") "w");
  for_batches (batcher reader (batch_size args))
    (fun bs => inr (concat (map (map (softmax classifier)) bs))).

(** What a completed run leaves behind. *)
Record outcome : Type := Outcome {
  o_training : option (train_state (list feats));
  o_report : option eval_report;
  o_predictions : option (list (list Q))
}.

(** The [if args.do_eval:] and [if args.do_predict:] blocks, run on the
    classifier the training or the load has left. *)
Definition later_stages (s : session) (fs : FileSystem) (classifier : Model)
    (training : option (train_state (list feats))) : M outcome :=
  let args := s_args s in
  do report <-
    (if do_eval args
     then do r <- eval_stage s fs classifier; ret (Some r)
     else ret None);
  do predictions <-
    (if do_predict args
     then do r <- predict_stage s fs classifier; ret (Some r)
     else ret None);
  ret (Outcome training report predictions).

(** The [__main__] block after start-up. *)
Definition stages (s : session) (fs : FileSystem) : M outcome :=
  let args := s_args s in
  do trained <-
    (if do_train args
     then do r <- train_stage s fs; ret (r.1, Some r.2)
     else do m <- load_trained s fs; ret (m, None));
  later_stages s fs trained.1 trained.2.

Definition main (cl : CommandLine) (fs : FileSystem) : M outcome :=
  do s <- startup cl fs;
  stages s fs.

End Driver.

(* --------------------------------------------------------------------- *)
(* Vocabulary of the properties                                          *)
(* --------------------------------------------------------------------- *)

Definition xnli_entry : problem_entry :=
  Problem ["contradiction"; "entailment"; "neutral"]
    (fun fs data_dir label_vocab partition =>
       _xnli_reader fs data_dir label_vocab partition "zh").
Definition mnli_entry : problem_entry :=
  Problem ["contradiction"; "entailment"; "neutral"] _mnli_reader.
Definition mrpc_entry : problem_entry := Problem ["0"; "1"] _mrpc_reader.
Definition cola_entry : problem_entry := Problem ["0"; "1"] _cola_reader.

(** The partitions each reader accepts. *)
Definition supported (name : string) : list string :=
  if decide (name = "xnli") then ["train"; "dev"] else ["train"; "dev"; "test"].

(** The label the readers give the rows of an unlabeled test file. *)
Definition placeholder (name : string) : string :=
  if decide (name = "mnli") then "contradiction" else "0".

(** The canonical spelling of a label. *)
Definition canonical (label : string) : string :=
  if decide (label = "contradictory") then "contradiction" else label.

(** Where the xnli reader finds the label and the file of a partition. *)
Definition label_column (partition : string) : nat :=
  if decide (partition = "train") then 2%nat else 1%nat.

Definition xnli_file (data_dir partition lang : string) : string :=
  if decide (partition = "train")
  then data_dir +:+ "/multinli/multinli.train." +:+ lang +:+ ".tsv"
  else data_dir +:+ "/xnli.dev.tsv".

(** How the xnli reader fails on a row of the train file, if it does: the
    row is too short for columns 0 to 2, or the canonical spelling of its
    label is not in the vocabulary. *)
Definition xnli_train_failure (label_vocab : gmap string nat)
    (line : list string) : option exn :=
  if decide (length line < 3)%nat
  then Some (IndexError "list index out of range")
  else match label_vocab !! canonical (nth 2 line "") with
       | None => Some (KeyError (canonical (nth 2 line "")))
       | Some _ => None
       end.

(** The example the xnli reader makes of row [i] of the train file: the
    label id is the vocabulary entry of the canonical spelling. *)
Definition xnli_train_example (label_vocab : gmap string nat) (i : nat)
    (line : list string) : example :=
  Example ("train" +:+ "-" +:+ str_of_nat i) (nth 0 line "")
    (Some (nth 1 line ""))
    (default 0%nat (label_vocab !! canonical (nth 2 line ""))).

(** How the xnli reader fails on a row of the dev file, if it does: the
    row is empty, or it is of the requested language and too short for
    columns 6 and 7, or its label, as the file spells it, is not in the
    vocabulary. *)
Definition xnli_dev_failure (label_vocab : gmap string nat) (lang : string)
    (line : list string) : option exn :=
  if decide (length line < 1)%nat
  then Some (IndexError "list index out of range")
  else if decide (nth 0 line "" ≠ lang) then None
  else if decide (length line < 8)%nat
  then Some (IndexError "list index out of range")
  else match label_vocab !! nth 1 line "" with
       | None => Some (KeyError (nth 1 line ""))
       | Some _ => None
       end.

(** What the xnli reader makes of row [i] of the dev file: nothing of a
    row of another language, else an example whose label id is the
    vocabulary entry of the label as the file spells it. *)
Definition xnli_dev_example (label_vocab : gmap string nat) (lang : string)
    (i : nat) (line : list string) : option example :=
  if decide (nth 0 line "" ≠ lang) then None
  else Some (Example ("dev" +:+ "-" +:+ str_of_nat i) (nth 6 line "")
               (Some (nth 7 line ""))
               (default 0%nat (label_vocab !! nth 1 line ""))).

(** The columns the xnli reader reads of a row: 0 to 2 of the train file,
    0, 1, 6 and 7 of the dev file. *)
Definition xnli_width (partition : string) : nat :=
  if decide (partition = "train") then 3%nat else 8%nat.

(** "The reader remaps [contradictory] to [contradiction] before the
    vocabulary lookup" in a partition: with the vocabulary built from the
    labels of the problem, a file whose one data row is a full row of the
    requested language labelled [contradictory] gives one example, and it
    carries the id of [contradiction]. *)
Definition remap_is_applied (partition : string) : Prop :=
  forall (fs : FileSystem) data_dir lang f header row,
    fs !! xnli_file data_dir partition lang = Some f ->
    f_rows f = [header; row] ->
    (xnli_width partition <= length row)%nat ->
    (partition = "dev" -> nth 0 row "" = lang) ->
    nth (label_column partition) row "" = "contradictory" ->
    exists id,
      label_vocab_of (labels xnli_entry) !! "contradiction" = Some id
      /\ map label_id
           (g_items (_xnli_reader fs data_dir
                       (label_vocab_of (labels xnli_entry)) partition lang))
         = [id].

(** An xnli corpus: a train file for [zh] with a row labelled
    [contradictory], and a dev file with a row of another language, a row
    labelled [neutral] and a row labelled [contradictory]. *)
Definition xnli_fs : FileSystem :=
  {[ "x/multinli/multinli.train.zh.tsv" :=
       tsv [["premise"; "hypo"; "label"];
            ["p1"; "h1"; "contradictory"];
            ["p2"; "h2"; "neutral"]];
     "x/xnli.dev.tsv" :=
       tsv [["language"; "gold_label"];
            ["en"; "neutral"];
            ["zh"; "neutral"; ""; ""; ""; ""; "p3"; "h3"];
            ["zh"; "contradictory"; ""; ""; ""; ""; "p4"; "h4"]] ]}.

(** The [j]-th run of [m] consecutive micro-batches of an epoch, and the
    runs of an epoch that are complete. *)
Definition cycle {B} (m : nat) (bs : list B) (j : nat) : list B :=
  take m (drop (j * m) bs).

Definition full_cycles {B} (m : nat) (bs : list B) : list (list B) :=
  map (cycle m bs) (seq 0 (length bs / m)).

(* --------------------------------------------------------------------- *)
(* A small world to run the script in                                    *)
(* --------------------------------------------------------------------- *)

(** Collaborators that do as little as possible: the tokenizer reads its
    vocabulary file, features are the length of the first text, every
    load succeeds, batches hold one sample, and the classifier prefers
    class 0 exactly when the first input id is positive. *)
Definition toy : Collaborators := {|
  Tokenizer := unit;
  Model := unit;
  FullTokenizer := fun fs vocab_file _ =>
    (run emit (Open vocab_file "r");
     match fs !! vocab_file with
     | None => raise (FileNotFoundError vocab_file)
     | Some _ => ret tt
     end);
  example_to_feats := fun a b _ _ =>
    inr (Encoding [Z.of_nat (String.length a)] [0] [1]);
  BertClassifier := fun _ _ => inr tt;
  load_bert := fun m _ => inr m;
  load_pooler := fun m _ => inr m;
  load_state_dict := fun m _ => inr m;
  DataLoader := fun samples _ => inr (fun _ => map (fun x => [x]) samples);
  Adam := fun _ _ => inr tt;
  pickle_dump := fun _ _ _ => inr tt;
  fit := fun m _ => m;
  batcher := fun g _ =>
    Gen (g_trace g) (map (fun x => [x]) (g_items g)) (g_exn g);
  log_probs := fun _ x => map inject_Z (input_ids x);
  softmax := fun _ x => [1 # 2; 1 # 2]%Q
|}.

Definition toy_config (limit : Z) : file :=
  File [] (Some {[ "max_position_embeddings" := PyInt limit;
                   "hidden_size" := PyInt 8 ]}) None.

Definition toy_pickle : file := File [] None (Some ∅).

Definition toy_fs (limit : Z) : FileSystem :=
  {[ "pre/bert_config.json" := toy_config limit;
     "pre/vocab.txt" := tsv [["[PAD]"]];
     "pre/bert_model.pickle" := toy_pickle;
     "pre/pooler_model.pickle" := toy_pickle;
     "data/train.tsv" :=
       tsv [["Quality"; "#1 ID"; "#2 ID"; "#1 String"; "#2 String"];
            ["1"; "11"; "12"; "a b"; "a b c"];
            ["0"; "21"; "22"; "d"; "e f"]];
     "data/test.tsv" :=
       tsv [["index"; "#1 ID"; "#2 ID"; "#1 String"; "#2 String"];
            ["0"; "31"; "32"; "g h"; "i"];
            ["1"; "41"; "42"; "j"; "k l"]];
     "data/xnli.dev.tsv" :=
       tsv [["language"; "gold_label"];
            ["zh"; "contradictory"; ""; ""; ""; ""; "premise"; "hypothesis"]] ]}.

(** [run_classifier.py pre out --problem mrpc --data_dir data], with
    [--do_train], [--num_train_epochs] and [--max_seq_length] as given. *)
Definition toy_command (train : bool) (epochs_arg seq_arg : option string)
    : CommandLine :=
  {| cl_pretrained_dir := "pre"; cl_output_dir := "out";
     cl_batch_size := None; cl_max_seq_length := seq_arg;
     cl_do_lower_case := None; cl_problem := Some "mrpc";
     cl_data_dir := Some "data"; cl_do_train := train; cl_do_eval := false;
     cl_do_predict := false; cl_learning_rate := None;
     cl_num_train_epochs := epochs_arg; cl_macro_batch := None |}.

(** Collaborators whose classifier is the parameters last loaded into it,
    to see where a loaded state ends up: every class probability row is
    the entry [w] of the classifier. *)
Definition probe : Collaborators := {|
  Tokenizer := unit;
  Model := state_dict;
  FullTokenizer := fun _ _ _ => ret tt;
  example_to_feats := fun _ _ _ _ => inr (Encoding [] [] []);
  BertClassifier := fun _ _ => inr ∅;
  load_bert := fun m _ => inr m;
  load_pooler := fun m _ => inr m;
  load_state_dict := fun _ sd => inr sd;
  DataLoader := fun samples _ => inr (fun _ => map (fun x => [x]) samples);
  Adam := fun _ _ => inr tt;
  pickle_dump := fun _ _ _ => inr tt;
  fit := fun m _ => m;
  batcher := fun g _ =>
    Gen (g_trace g) (map (fun x => [x]) (g_items g)) (g_exn g);
  log_probs := fun _ _ => [0%Q];
  softmax := fun m _ => [inject_Z (Z.of_nat (default 0%nat (m !! "w")))]
|}.

(** The small world with a saved classifier whose entry [w] is 7. *)
Definition probe_fs : FileSystem :=
  <[ "out/bert_classifier.pickle" := File [] None (Some {[ "w" := 7%nat ]}) ]>
    (toy_fs 128).

(** [pre out --problem mrpc --data_dir data --do_predict] *)
Definition predict_command : CommandLine :=
  {| cl_pretrained_dir := "pre"; cl_output_dir := "out";
     cl_batch_size := None; cl_max_seq_length := None;
     cl_do_lower_case := None; cl_problem := Some "mrpc";
     cl_data_dir := Some "data"; cl_do_train := false; cl_do_eval := false;
     cl_do_predict := true; cl_learning_rate := None;
     cl_num_train_epochs := None; cl_macro_batch := None |}.

(** The first call of [open] a computation makes. *)
Definition starts_with {A} (ev : event) (m : M A) : Prop :=
  exists t r, m = (ev :: t, r).

Definition config_path (cl : CommandLine) : string :=
  cl_pretrained_dir cl +:+ "/" +:+ "bert_config.json".

Definition trained_path (cl : CommandLine) : string :=
  cl_output_dir cl +:+ "/bert_classifier.pickle".

(** Two dev samples as the classifier scores them: [sample_hit] has gold
    label 0 and log-probabilities favouring class 0, [sample_miss] has gold
    label 0 and log-probabilities favouring class 1. *)
Definition sample_hit : feats := Feats [0; -3] [0; 0] [1; 1] 0 "dev-1".
Definition sample_miss : feats := Feats [-3; 0] [0; 0] [1; 1] 0 "dev-33".
Definition toy_score : feats -> list Q := fun x => map inject_Z (input_ids x).

(* --------------------------------------------------------------------- *)
(* Vocabulary of the further properties                                  *)
(* --------------------------------------------------------------------- *)

(** The file each reader of the registry opens for a partition. *)
Definition corpus_file (name data_dir partition : string) : string :=
  if decide (name = "xnli") then
    if decide (partition = "train")
    then data_dir +:+ "/multinli/multinli.train." +:+ "zh" +:+ ".tsv"
    else data_dir +:+ "/xnli.dev.tsv"
  else if decide (partition = "train") then data_dir +:+ "/train.tsv"
  else if decide (name = "mnli") then
    if decide (partition = "dev") then data_dir +:+ "/dev_matched.tsv"
    else data_dir +:+ "/test_matched.tsv"
  else if decide (partition = "dev") then data_dir +:+ "/dev.tsv"
  else data_dir +:+ "/test.tsv".

(** How the mrpc reader fails on a row of a labelled partition, if it
    does: too short for columns 3 and 4, or labelled outside the
    vocabulary. *)
Definition mrpc_failure (label_vocab : gmap string nat) (line : list string)
    : option exn :=
  if decide (length line < 5)%nat
  then Some (IndexError "list index out of range")
  else match label_vocab !! nth 0 line "" with
       | None => Some (KeyError (nth 0 line ""))
       | Some _ => None
       end.

(** The example the mrpc reader makes of row [i] of a labelled partition. *)
Definition mrpc_example (label_vocab : gmap string nat) (partition : string)
    (i : nat) (line : list string) : example :=
  Example (partition +:+ "-" +:+ str_of_nat i) (nth 3 line "")
    (Some (nth 4 line "")) (default 0%nat (label_vocab !! nth 0 line "")).

(** How the cola reader fails on a row, if it does: in the test partition
    it reads column 1 and looks the placeholder up, elsewhere it reads
    columns 1 and 3 and looks column 1 up. *)
Definition cola_failure (label_vocab : gmap string nat) (partition : string)
    (line : list string) : option exn :=
  let width := if decide (partition = "test") then 2%nat else 4%nat in
  let label := if decide (partition = "test") then "0" else nth 1 line "" in
  if decide (length line < width)%nat
  then Some (IndexError "list index out of range")
  else match label_vocab !! label with
       | None => Some (KeyError label)
       | Some _ => None
       end.

(** The example the cola reader makes of row [i]. *)
Definition cola_example (label_vocab : gmap string nat) (partition : string)
    (i : nat) (line : list string) : example :=
  let label := if decide (partition = "test") then "0" else nth 1 line "" in
  let text := if decide (partition = "test") then nth 1 line ""
              else nth 3 line "" in
  Example (partition +:+ "-" +:+ str_of_nat i) text None
    (default 0%nat (label_vocab !! label)).

(** A small cola corpus: train without a header, test with one. *)
Definition cola_fs : FileSystem :=
  {[ "cola/train.tsv" :=
       tsv [["gj04"; "1"; ""; "The book was read."];
            ["gj04"; "0"; "*"; "The book read."]];
     "cola/test.tsv" :=
       tsv [["index"; "sentence"]; ["0"; "The pub drank."]] ]}.

(** What identifies a sample on both sides of [feats_reader]. *)
Definition example_key (ex : example) : string * nat := (guid ex, label_id ex).
Definition feats_key (x : feats) : string * nat :=
  (feats_guid x, feats_label_id x).

(** A command line naming a corpus the script does not know. *)
Definition unknown_problem_command : CommandLine :=
  {| cl_pretrained_dir := "pre"; cl_output_dir := "out";
     cl_batch_size := None; cl_max_seq_length := None;
     cl_do_lower_case := None; cl_problem := Some "sst";
     cl_data_dir := Some "data"; cl_do_train := true; cl_do_eval := false;
     cl_do_predict := false; cl_learning_rate := None;
     cl_num_train_epochs := None; cl_macro_batch := None |}.

(** [pre out --problem mrpc --data_dir data --do_train --macro_batch 2] *)
Definition macro_batch_command : CommandLine :=
  {| cl_pretrained_dir := "pre"; cl_output_dir := "out";
     cl_batch_size := None; cl_max_seq_length := None;
     cl_do_lower_case := None; cl_problem := Some "mrpc";
     cl_data_dir := Some "data"; cl_do_train := true; cl_do_eval := false;
     cl_do_predict := false; cl_learning_rate := None;
     cl_num_train_epochs := None; cl_macro_batch := Some "2" |}.

(** The small world with an optimizer that checks its learning rate as
    torch does ([0.0 <= lr]) and an output directory that cannot be
    written. *)
Definition strict : Collaborators := {|
  Tokenizer := unit;
  Model := unit;
  FullTokenizer := fun _ _ _ => ret tt;
  example_to_feats := fun a b _ _ =>
    inr (Encoding [Z.of_nat (String.length a)] [0] [1]);
  BertClassifier := fun _ _ => inr tt;
  load_bert := fun m _ => inr m;
  load_pooler := fun m _ => inr m;
  load_state_dict := fun m _ => inr m;
  DataLoader := fun samples _ => inr (fun _ => map (fun x => [x]) samples);
  Adam := fun _ lr =>
    match lr with
    | PyStr _ =>
        inl (TypeError
               "'<=' not supported between instances of 'float' and 'str'")
    | _ => inr tt
    end;
  pickle_dump := fun _ _ _ => inl (ExternalError "pickle.dump");
  fit := fun m _ => m;
  batcher := fun g _ =>
    Gen (g_trace g) (map (fun x => [x]) (g_items g)) (g_exn g);
  log_probs := fun _ x => map inject_Z (input_ids x);
  softmax := fun _ x => [1 # 2; 1 # 2]%Q
|}.

(** [pre out --problem mrpc --data_dir data --do_train], with
    [--learning_rate] as given. *)
Definition learning_rate_command (lr : option string) : CommandLine :=
  {| cl_pretrained_dir := "pre"; cl_output_dir := "out";
     cl_batch_size := None; cl_max_seq_length := None;
     cl_do_lower_case := None; cl_problem := Some "mrpc";
     cl_data_dir := Some "data"; cl_do_train := true; cl_do_eval := false;
     cl_do_predict := false; cl_learning_rate := lr;
     cl_num_train_epochs := None; cl_macro_batch := None |}.

(** The small world with a train file of three rows: three micro-batches
    an epoch. *)
Definition odd_fs : FileSystem :=
  <["data/train.tsv" :=
      tsv [["Quality"; "#1 ID"; "#2 ID"; "#1 String"; "#2 String"];
           ["1"; "11"; "12"; "a b"; "a b c"];
           ["0"; "21"; "22"; "d"; "e f"];
           ["1"; "51"; "52"; "m"; "n"]]]> (toy_fs 128).

(** What comparing the counter with a [--macro_batch] typed on the command
    line raises. *)
Definition counter_type_error : exn :=
  TypeError "'>=' not supported between instances of 'int' and 'str'".

(** The session start-up leaves in the small world for
    [pre out --problem mrpc --data_dir data --do_train]. *)
Definition toy_session : @session toy :=
  @Session toy
    {| pretrained_dir := "pre"; output_dir := "out";
       batch_size := PyInt 32; max_seq_length := PyInt 128;
       do_lower_case := PyBool true; problem := "mrpc";
       data_dir := "data"; do_train := true; do_eval := false;
       do_predict := false; learning_rate := PyFloat (2 # 100000);
       num_train_epochs := PyInt 3; macro_batch := PyInt 1 |}
    (label_vocab_of ["0"; "1"]) _mrpc_reader
    {[ "max_position_embeddings" := PyInt 128; "hidden_size" := PyInt 8 ]}
    tt tt.

(** The small world after a training run has saved its classifier. *)
Definition trained_fs : FileSystem :=
  <[ "out/bert_classifier.pickle" := toy_pickle ]> (toy_fs 128).

(* ===================================================================== *)
(* Properties                                                            *)
(* ===================================================================== *)

(* --------------------------------------------------------------------- *)
(* Generic facts about the loops                                         *)
(* --------------------------------------------------------------------- *)

Ltac split_sum :=
  repeat match goal with
  | H : context [match ?e with inl _ => _ | inr _ => _ end] |- _ =>
      destruct e eqn:?; simplify_eq/=
  | H : context [if decide ?P then _ else _] |- _ =>
      destruct (decide P); simplify_eq/=
  end.

Lemma for_rows_Forall {A B} (P : B -> Prop) (body : nat -> A -> exn + option B) :
  (forall i x y, body i x = inr (Some y) -> P y) ->
  forall items i, Forall P (for_rows body i items).1.
Proof.
  intros Hbody items. induction items as [|x rest IH]; intros i; simpl.
  - constructor.
  - destruct (body i x) as [e|[y|]] eqn:Hb; simpl.
    + constructor.
    + specialize (IH (S i)). destruct (for_rows body (S i) rest) as [ys e].
      simpl in *. constructor; [by eapply Hbody | done].
    + apply IH.
Qed.

Lemma for_enumerate_Forall {A B} (P : B -> Prop)
    (body : nat -> A -> exn + option B) (src : gen A) :
  (forall i x y, body i x = inr (Some y) -> P y) ->
  Forall P (g_items (for_enumerate body src)).
Proof.
  intros Hbody. unfold for_enumerate.
  pose proof (for_rows_Forall P body Hbody (g_items src) 0%nat) as HF.
  destruct (for_rows body 0 (g_items src)) as [ys e]. done.
Qed.

Lemma for_rows_app {A B} (body : nat -> A -> exn + option B) l1 l2 i :
  for_rows body i (l1 ++ l2) =
  match for_rows body i l1 with
  | (ys, Some e) => (ys, Some e)
  | (ys, None) =>
      let '(zs, e) := for_rows body (i + length l1) l2 in (ys ++ zs, e)
  end.
Proof.
  revert i. induction l1 as [|x l1 IH]; intros i; simpl.
  - rewrite Nat.add_0_r. by destruct (for_rows body i l2).
  - destruct (body i x) as [e|[y|]]; [done| |].
    + rewrite IH. replace (S i + length l1)%nat with (i + S (length l1))%nat by lia.
      destruct (for_rows body (S i) l1) as [ys [e|]]; [done|].
      by destruct (for_rows body _ l2).
    + rewrite IH. by replace (S i + length l1)%nat with (i + S (length l1))%nat by lia.
Qed.

Lemma for_rows_total {A B} (body : nat -> A -> exn + option B)
    (f : nat -> A -> B) items i :
  (forall k x, items !! k = Some x ->
     body (i + k)%nat x = inr (Some (f (i + k)%nat x))) ->
  for_rows body i items = (imap (fun k => f (i + k)%nat) items, None).
Proof.
  revert i. induction items as [|x items IH]; intros i Hb; simpl; [done|].
  pose proof (Hb 0%nat x eq_refl) as H0. rewrite Nat.add_0_r in H0.
  rewrite H0, (IH (S i)).
  - rewrite Nat.add_0_r. do 2 f_equal. apply imap_ext. intros k y _. simpl.
    f_equal. lia.
  - intros k y Hk. replace (S i + k)%nat with (i + S k)%nat by lia.
    by apply (Hb (S k)).
Qed.

Lemma for_rows_indexed {A B} (body : nat -> A -> exn + option B) items i y :
  y ∈ (for_rows body i items).1 ->
  exists k x, items !! k = Some x /\ body (i + k)%nat x = inr (Some y).
Proof.
  revert i. induction items as [|x rest IH]; intros i; simpl.
  - intros Hy. by apply elem_of_nil in Hy.
  - destruct (body i x) as [e|[z|]] eqn:Hb; simpl.
    + intros Hy. by apply elem_of_nil in Hy.
    + specialize (IH (S i)). destruct (for_rows body (S i) rest) as [ys e].
      simpl in *. intros [->|Hy]%elem_of_cons.
      * exists 0%nat, x. by rewrite Nat.add_0_r.
      * destruct (IH Hy) as (k & x' & Hx' & Hk). exists (S k), x'.
        split; [done|]. by replace (i + S k)%nat with (S i + k)%nat by lia.
    + intros Hy. destruct (IH _ Hy) as (k & x' & Hx' & Hk). exists (S k), x'.
      split; [done|]. by replace (i + S k)%nat with (S i + k)%nat by lia.
Qed.

Lemma for_rows_sublist {A B C} (body : nat -> A -> exn + option B)
    (h : B -> C) (g : nat -> C) items i :
  (forall j x y, body j x = inr (Some y) -> h y = g j) ->
  map h (for_rows body i items).1 `sublist_of` map g (seq i (length items)).
Proof.
  intros Hb. revert i. induction items as [|x rest IH]; intros i; simpl.
  - constructor.
  - specialize (IH (S i)).
    destruct (body i x) as [e|[y|]] eqn:Hy; simpl.
    + apply sublist_nil_l.
    + destruct (for_rows body (S i) rest) as [ys e]. simpl in *.
      rewrite (Hb _ _ _ Hy). by apply sublist_skip.
    + by apply sublist_cons.
Qed.

Lemma py_index_nth (line : list string) k :
  (k < length line)%nat -> py_index line k = inr (nth k line "").
Proof.
  intros Hk. unfold py_index.
  destruct (lookup_lt_is_Some_2 line k Hk) as [x Hx]. rewrite Hx.
  f_equal. symmetry. by apply nth_lookup_Some with (d := "") in Hx.
Qed.

Lemma py_index_short (line : list string) k :
  (length line <= k)%nat ->
  py_index line k = inl (IndexError "list index out of range").
Proof. intros Hk. unfold py_index. by rewrite lookup_ge_None_2. Qed.

Lemma for_each_app {S A} (body : S -> A -> exn + S) st l1 l2 :
  for_each body st (l1 ++ l2) =
  match for_each body st l1 with
  | inl e => inl e
  | inr st' => for_each body st' l2
  end.
Proof.
  revert st. induction l1 as [|x l1 IH]; intros st; simpl; [done|].
  destruct (body st x); [done|]. apply IH.
Qed.

Lemma Qle_bool_inject_Z (a b : Z) :
  Qle_bool (inject_Z a) (inject_Z b) = (a <=? b).
Proof. unfold Qle_bool, inject_Z. simpl. by rewrite !Z.mul_1_r. Qed.

Lemma py_ge_int (c m : Z) : py_ge (PyInt c) (PyInt m) = inr (m <=? c).
Proof. unfold py_ge. simpl. by rewrite Qle_bool_inject_Z. Qed.

Lemma py_lt_int (a b : Z) : py_lt (PyInt a) (PyInt b) = inr (a <? b).
Proof.
  unfold py_lt. simpl. rewrite Qle_bool_inject_Z. f_equal.
  destruct (Z.leb_spec b a), (Z.ltb_spec a b); simpl; try done; lia.
Qed.

(** An integer never compares with a string: [int < str] raises. *)
Lemma py_lt_int_str (a : Z) (s : string) :
  py_lt (PyInt a) (PyStr s) =
  inl (TypeError "'<' not supported between instances of 'int' and 'str'").
Proof. reflexivity. Qed.

(* --------------------------------------------------------------------- *)
(* The registry and the label vocabulary                                 *)
(* --------------------------------------------------------------------- *)

Lemma problems_lookup name p :
  _PROBLEMS !! name = Some p ->
  (name = "xnli" /\ p = xnli_entry) \/ (name = "mnli" /\ p = mnli_entry) \/
  (name = "mrpc" /\ p = mrpc_entry) \/ (name = "cola" /\ p = cola_entry).
Proof.
  unfold _PROBLEMS. intros Hp.
  repeat (rewrite lookup_insert in Hp; case_decide; [simplify_eq; tauto|]).
  apply lookup_singleton_Some in Hp as [<- <-]. tauto.
Qed.

Lemma problems_labels_NoDup name p :
  _PROBLEMS !! name = Some p -> NoDup (labels p).
Proof.
  intros Hp.
  apply problems_lookup in Hp as [[_ ->]|[[_ ->]|[[_ ->]|[_ ->]]]]; simpl;
    apply (bool_decide_unpack (NoDup _)); vm_compute; exact I.
Qed.

Lemma label_vocab_of_snoc ls l :
  label_vocab_of (ls ++ [l]) = <[l := length ls]> (label_vocab_of ls).
Proof.
  unfold label_vocab_of. rewrite imap_app, foldl_app. simpl.
  by rewrite Nat.add_0_r.
Qed.

(** Without repeated labels the vocabulary is the inverse of indexing. *)
Lemma label_vocab_of_lookup ls :
  NoDup ls -> forall l i, label_vocab_of ls !! l = Some i <-> ls !! i = Some l.
Proof.
  induction ls as [|x ls IH] using rev_ind; intros Hnd l i.
  - unfold label_vocab_of; simpl. rewrite lookup_empty. by rewrite lookup_nil.
  - apply NoDup_app in Hnd as (Hnd & Hnot & _).
    rewrite label_vocab_of_snoc, lookup_insert.
    case_decide as Hx.
    + subst l. split.
      * intros [= <-]. by rewrite list_lookup_middle.
      * intros Hi. f_equal.
        destruct (decide (i < length ls)%nat) as [Hlt|Hge].
        -- rewrite lookup_app_l in Hi by done.
           apply list_elem_of_lookup_2 in Hi.
           destruct (Hnot x Hi). apply list_elem_of_here.
        -- apply lookup_lt_Some in Hi. rewrite length_app in Hi.
           simpl in Hi. lia.
    + rewrite IH by done. split.
      * intros Hi. by apply lookup_app_l_Some.
      * intros Hi. apply lookup_app_Some in Hi as [Hi|[_ Hi]]; [done|].
        apply list_lookup_singleton_Some in Hi as [_ ->]. done.
Qed.

(** C8: for every corpus of the registry and every label [l] it declares,
    the label vocabulary maps [l] to an index [i] at which the declared
    label sequence holds [l] again, and the indices in the vocabulary are
    exactly the positions [0 .. n-1] of the declared sequence. *)
Theorem label_vocab_round_trip name p l :
  _PROBLEMS !! name = Some p ->
  l ∈ labels p ->
  (exists i, py_getitem (label_vocab_of (labels p)) l = inr i
             /\ labels p !! i = Some l)
  /\ (forall j, (exists l', label_vocab_of (labels p) !! l' = Some j)
                <-> (j < length (labels p))%nat).
Proof.
  intros Hp Hl. pose proof (problems_labels_NoDup name p Hp) as Hnd.
  split.
  - apply list_elem_of_lookup in Hl as [i Hi]. exists i.
    unfold py_getitem.
    by rewrite (proj2 (label_vocab_of_lookup _ Hnd l i) Hi).
  - intros j. split.
    + intros [l' Hl']. apply (label_vocab_of_lookup _ Hnd) in Hl'.
      by apply lookup_lt_Some in Hl'.
    + intros Hj. apply lookup_lt_is_Some_2 in Hj as [l' Hl'].
      exists l'. by apply (label_vocab_of_lookup _ Hnd).
Qed.

Lemma label_vocab_round_trip_witness :
  (exists i, py_getitem (label_vocab_of (labels mrpc_entry)) "1" = inr i
             /\ labels mrpc_entry !! i = Some "1")
  /\ (forall j, (exists l', label_vocab_of (labels mrpc_entry) !! l' = Some j)
                <-> (j < length (labels mrpc_entry))%nat).
Proof.
  apply (label_vocab_round_trip "mrpc" mrpc_entry "1").
  - reflexivity.
  - simpl. apply list_elem_of_further, list_elem_of_here.
Defined.

(* --------------------------------------------------------------------- *)
(* Dataset readers                                                       *)
(* --------------------------------------------------------------------- *)

Lemma partition_file_test (a b c : string) :
  ({[ "train" := a; "dev" := b; "test" := c ]} : gmap string string) !! "test"
  = Some c.
Proof. by simplify_map_eq. Qed.

Lemma partition_file_None (a b c partition : string) :
  partition ∉ ["train"; "dev"; "test"] ->
  ({[ "train" := a; "dev" := b; "test" := c ]} : gmap string string)
    !! partition = None.
Proof.
  rewrite !not_elem_of_cons. intros (Htrain & Hdev & Htest & _).
  rewrite !lookup_insert_ne by done. by apply lookup_singleton_ne.
Qed.

(** C4: in the test partition of the mnli, mrpc and cola readers, whatever
    the file holds, every example yielded carries the label id of the
    placeholder, which is the first label the corpus declares
    ([contradiction] for mnli, [0] for mrpc and cola). *)
Theorem test_partition_placeholder name p fs data_dir ex :
  name ∈ ["mnli"; "mrpc"; "cola"] ->
  _PROBLEMS !! name = Some p ->
  ex ∈ g_items (reader p fs data_dir (label_vocab_of (labels p)) "test") ->
  head (labels p) = Some (placeholder name)
  /\ py_getitem (label_vocab_of (labels p)) (placeholder name)
     = inr (label_id ex)
  /\ label_id ex = 0%nat.
Proof.
  intros Hname Hp Hex.
  apply problems_lookup in Hp as [[-> ->]|[[-> ->]|[[-> ->]|[-> ->]]]].
  - rewrite !elem_of_cons, elem_of_nil in Hname.
    destruct Hname as [?|[?|[?|[]]]]; discriminate.
  - split; [reflexivity|].
    assert (label_id ex = 0%nat) as ->; [|done].
    revert ex Hex. apply Forall_forall. simpl.
    unfold _mnli_reader. rewrite partition_file_test.
    apply for_enumerate_Forall. intros i line y Hy.
    split_sum. match goal with H : py_getitem _ _ = _ |- _ =>
      vm_compute in H; by simplify_eq end.
  - split; [reflexivity|].
    assert (label_id ex = 0%nat) as ->; [|done].
    revert ex Hex. apply Forall_forall. simpl.
    unfold _mrpc_reader. rewrite partition_file_test.
    apply for_enumerate_Forall. intros i line y Hy.
    split_sum. match goal with H : py_getitem _ _ = _ |- _ =>
      vm_compute in H; by simplify_eq end.
  - split; [reflexivity|].
    assert (label_id ex = 0%nat) as ->; [|done].
    revert ex Hex. apply Forall_forall. simpl.
    unfold _cola_reader. rewrite partition_file_test.
    apply for_enumerate_Forall. intros i line y Hy.
    split_sum. match goal with H : py_getitem _ _ = _ |- _ =>
      vm_compute in H; by simplify_eq end.
Qed.

Lemma test_partition_placeholder_witness :
  let ex := Example "test-2" "j" (Some "k l") 0 in
  ex ∈ g_items (reader mrpc_entry (toy_fs 128) "data"
                  (label_vocab_of (labels mrpc_entry)) "test")
  /\ head (labels mrpc_entry) = Some (placeholder "mrpc")
  /\ py_getitem (label_vocab_of (labels mrpc_entry)) (placeholder "mrpc")
     = inr (label_id ex)
  /\ label_id ex = 0%nat.
Proof.
  intros ex.
  assert (Hex : ex ∈ g_items (reader mrpc_entry (toy_fs 128) "data"
                        (label_vocab_of (labels mrpc_entry)) "test")).
  { assert (g_items (reader mrpc_entry (toy_fs 128) "data"
                       (label_vocab_of (labels mrpc_entry)) "test")
            = [Example "test-1" "g h" (Some "i") 0; ex]) as ->
      by (vm_compute; reflexivity).
    apply list_elem_of_further, list_elem_of_here. }
  split; [exact Hex|].
  apply (test_partition_placeholder "mrpc" mrpc_entry (toy_fs 128) "data" ex).
  - apply list_elem_of_further, list_elem_of_here.
  - reflexivity.
  - exact Hex.
Defined.

(** C6: every reader of the registry, given a partition it does not
    support, yields nothing, opens no file and raises [ValueError] with the
    message [no such partition in this dataset: ] followed by the [repr] of
    the partition asked for. *)
Theorem unknown_partition_rejected name p fs data_dir label_vocab partition :
  _PROBLEMS !! name = Some p ->
  partition ∉ supported name ->
  reader p fs data_dir label_vocab partition =
    Gen [] [] (Some (ValueError
      ("no such partition in this dataset: " +:+ py_repr partition))).
Proof.
  intros Hp Hpart.
  apply problems_lookup in Hp as [[-> ->]|[[-> ->]|[[-> ->]|[-> ->]]]];
    simpl in *.
  - unfold _xnli_reader. unfold supported in Hpart. simpl in Hpart.
    rewrite !not_elem_of_cons in Hpart. destruct Hpart as (? & ? & _).
    by repeat case_decide.
  - unfold _mnli_reader. by rewrite partition_file_None.
  - unfold _mrpc_reader. by rewrite partition_file_None.
  - unfold _cola_reader. by rewrite partition_file_None.
Qed.

Lemma bogus_unsupported name : "bogus" ∉ supported name.
Proof.
  unfold supported. case_decide; rewrite !not_elem_of_cons;
    repeat split; try discriminate; apply not_elem_of_nil.
Qed.

Lemma unknown_partition_rejected_witness :
  reader cola_entry (toy_fs 128) "data" ∅ "bogus" =
    Gen [] [] (Some (ValueError "no such partition in this dataset: 'bogus'")).
Proof.
  apply (unknown_partition_rejected "cola" cola_entry (toy_fs 128) "data" ∅
           "bogus").
  - reflexivity.
  - apply bogus_unsupported.
Defined.

Lemma for_rows_partial {A B} (body : nat -> A -> exn + option B)
    (f : nat -> A -> option B) items i :
  (forall k x, items !! k = Some x ->
     body (i + k)%nat x = inr (f (i + k)%nat x)) ->
  for_rows body i items
  = (omap id (imap (fun k => f (i + k)%nat) items), None).
Proof.
  revert i. induction items as [|x items IH]; intros i Hb; simpl; [done|].
  pose proof (Hb 0%nat x eq_refl) as H0. rewrite Nat.add_0_r in H0.
  assert (Hrest : for_rows body (S i) items
                  = (omap id (imap ((fun k => f (i + k)%nat) ∘ S) items), None)).
  { rewrite (IH (S i)).
    - do 2 f_equal. apply imap_ext. intros k y _. simpl. f_equal. lia.
    - intros k y Hk. replace (S i + k)%nat with (i + S k)%nat by lia.
      by apply (Hb (S k)). }
  rewrite H0, Hrest, Nat.add_0_r. by destruct (f i x).
Qed.

(** The xnli reader on the train partition, on a file that is a header,
    rows it accepts, and then either nothing or a row it fails on. *)
Lemma xnli_train_stream (fs : FileSystem) data_dir label_vocab lang f header
    good tail :
  fs !! xnli_file data_dir "train" lang = Some f ->
  f_rows f = header :: good ++ tail ->
  Forall (fun line => xnli_train_failure label_vocab line = None) good ->
  let opened := [Open (xnli_file data_dir "train" lang) "r"] in
  let items := imap (fun k => xnli_train_example label_vocab (S k)) good in
  (tail = [] ->
   _xnli_reader fs data_dir label_vocab "train" lang = Gen opened items None)
  /\ (forall bad rest e, tail = bad :: rest ->
        xnli_train_failure label_vocab bad = Some e ->
        _xnli_reader fs data_dir label_vocab "train" lang
        = Gen opened items (Some e)).
Proof.
  intros Hf Hrows Hgood opened items. subst opened.
  unfold xnli_file in *. simpl in *.
  unfold _xnli_reader. simpl. unfold for_enumerate, _read_tsv.
  rewrite Hf. simpl. rewrite Hrows.
  match goal with |- context [for_rows ?b _ _] => set (body := b) end.
  assert (Hok : forall i line, i ≠ 0%nat ->
            xnli_train_failure label_vocab line = None ->
            body i line = inr (Some (xnli_train_example label_vocab i line))).
  { intros i line Hi Hok.
    unfold body, xnli_train_failure, xnli_train_example, canonical in *.
    destruct (decide (i = 0%nat)); [done|].
    destruct (decide (length line < 3)%nat); [done|].
    rewrite !py_index_nth by lia. simpl.
    unfold py_getitem.
    by destruct (label_vocab !! _). }
  assert (Hfail : forall i line e, i ≠ 0%nat ->
            xnli_train_failure label_vocab line = Some e -> body i line = inl e).
  { intros i line e Hi Hbad. unfold body, xnli_train_failure, canonical in *.
    destruct (decide (i = 0%nat)); [done|].
    destruct (decide (length line < 3)%nat) as [Hlen|Hlen].
    - simplify_eq. destruct (decide (length line <= 0)%nat).
      + by rewrite py_index_short.
      + rewrite (py_index_nth line 0) by lia. simpl.
        destruct (decide (length line <= 1)%nat).
        * by rewrite py_index_short.
        * rewrite (py_index_nth line 1) by lia. simpl.
          by rewrite py_index_short by lia.
    - rewrite !py_index_nth by lia. simpl. unfold py_getitem.
      by destruct (label_vocab !! _); simplify_eq. }
  assert (Hrun : for_rows body 0 (header :: good) = (items, None)).
  { simpl. replace (body 0%nat header) with (@inr exn (option example) None)
      by done.
    rewrite (for_rows_total body (xnli_train_example label_vocab)); [done|].
    intros k x Hk. apply Hok; [lia|].
    rewrite Forall_forall in Hgood. apply Hgood.
    by eapply list_elem_of_lookup_2. }
  split.
  - intros ->. rewrite app_nil_r, Hrun. done.
  - intros bad rest e -> Hbad.
    change (header :: good ++ bad :: rest)
      with ((header :: good) ++ bad :: rest).
    rewrite for_rows_app, Hrun. simpl.
    rewrite (Hfail _ _ e) by done. by rewrite app_nil_r.
Qed.

(** The xnli reader on the dev partition, on a file that is a header, rows
    it accepts or skips, and then either nothing or a row it fails on. *)
Lemma xnli_dev_stream (fs : FileSystem) data_dir label_vocab lang f header
    good tail :
  fs !! xnli_file data_dir "dev" lang = Some f ->
  f_rows f = header :: good ++ tail ->
  Forall (fun line => xnli_dev_failure label_vocab lang line = None) good ->
  let opened := [Open (xnli_file data_dir "dev" lang) "r"] in
  let items :=
    omap id (imap (fun k => xnli_dev_example label_vocab lang (S k)) good) in
  (tail = [] ->
   _xnli_reader fs data_dir label_vocab "dev" lang = Gen opened items None)
  /\ (forall bad rest e, tail = bad :: rest ->
        xnli_dev_failure label_vocab lang bad = Some e ->
        _xnli_reader fs data_dir label_vocab "dev" lang
        = Gen opened items (Some e)).
Proof.
  intros Hf Hrows Hgood opened items. subst opened.
  unfold xnli_file in *. simpl in *.
  unfold _xnli_reader. simpl. unfold for_enumerate, _read_tsv.
  rewrite Hf. simpl. rewrite Hrows.
  match goal with |- context [for_rows ?b _ _] => set (body := b) end.
  assert (Hok : forall i line, i ≠ 0%nat ->
            xnli_dev_failure label_vocab lang line = None ->
            body i line = inr (xnli_dev_example label_vocab lang i line)).
  { intros i line Hi Hok.
    unfold body, xnli_dev_failure, xnli_dev_example in *.
    destruct (decide (i = 0%nat)); [done|].
    destruct (decide (length line < 1)%nat); [done|].
    rewrite (py_index_nth line 0) by lia. simpl.
    destruct (decide (nth 0 line "" ≠ lang)); [done|].
    destruct (decide (length line < 8)%nat); [done|].
    rewrite !py_index_nth by lia. simpl.
    unfold py_getitem.
    by destruct (label_vocab !! _). }
  assert (Hfail : forall i line e, i ≠ 0%nat ->
            xnli_dev_failure label_vocab lang line = Some e ->
            body i line = inl e).
  { intros i line e Hi Hbad. unfold body, xnli_dev_failure in *.
    destruct (decide (i = 0%nat)); [done|].
    destruct (decide (length line < 1)%nat).
    { simplify_eq. by rewrite py_index_short by lia. }
    rewrite (py_index_nth line 0) by lia. simpl.
    destruct (decide (nth 0 line "" ≠ lang)); [done|].
    destruct (decide (length line < 8)%nat) as [Hlen|Hlen].
    - simplify_eq. destruct (decide (length line <= 6)%nat).
      + by rewrite py_index_short.
      + rewrite (py_index_nth line 6) by lia. simpl.
        by rewrite py_index_short by lia.
    - rewrite !py_index_nth by lia. simpl. unfold py_getitem.
      by destruct (label_vocab !! _); simplify_eq. }
  assert (Hrun : for_rows body 0 (header :: good) = (items, None)).
  { simpl. replace (body 0%nat header) with (@inr exn (option example) None)
      by done.
    rewrite (for_rows_partial body (xnli_dev_example label_vocab lang));
      [done|].
    intros k x Hk. apply Hok; [lia|].
    rewrite Forall_forall in Hgood. apply Hgood.
    by eapply list_elem_of_lookup_2. }
  split.
  - intros ->. rewrite app_nil_r, Hrun. done.
  - intros bad rest e -> Hbad.
    change (header :: good ++ bad :: rest)
      with ((header :: good) ++ bad :: rest).
    rewrite for_rows_app, Hrun. simpl.
    rewrite (Hfail _ _ e) by done. by rewrite app_nil_r.
Qed.

(** In the train partition a full row labelled [contradictory] is yielded
    with the id the vocabulary of the problem gives [contradiction]. *)
Lemma xnli_train_remaps : remap_is_applied "train".
Proof.
  intros fs data_dir lang f header row Hf Hrows Hlen _ Hlabel.
  exists 0%nat. split; [reflexivity|].
  unfold label_column in Hlabel. unfold xnli_width in Hlen.
  simpl in Hlabel, Hlen.
  destruct (xnli_train_stream fs data_dir (label_vocab_of (labels xnli_entry))
              lang f header [row] [] Hf Hrows) as [Hrun _].
  { constructor; [|constructor]. unfold xnli_train_failure.
    destruct (decide (length row < 3)%nat); [lia|]. by rewrite Hlabel. }
  rewrite (Hrun eq_refl). simpl. by rewrite Hlabel.
Qed.

(** C5, as the code has it: the xnli reader respells [contradictory] as
    [contradiction] before the vocabulary lookup in the train partition
    only.  There, a row labelled [contradictory] is yielded with the id of
    [contradiction], and on a file that is a header, rows it accepts and
    then nothing or a row it fails on, the reader yields one example a
    row, with the id of the canonical spelling of column 2, and stops at
    the failure.  In the dev partition the same holds with the label of
    column 1 as the file spells it, for the rows of the language asked
    for: a label [contradictory] is looked up unchanged. *)
Theorem xnli_remap_train_only :
  remap_is_applied "train"
  /\ (forall (fs : FileSystem) data_dir label_vocab lang f header good tail,
        fs !! xnli_file data_dir "train" lang = Some f ->
        f_rows f = header :: good ++ tail ->
        Forall (fun line => xnli_train_failure label_vocab line = None) good ->
        let opened := [Open (xnli_file data_dir "train" lang) "r"] in
        let items :=
          imap (fun k => xnli_train_example label_vocab (S k)) good in
        (tail = [] ->
         _xnli_reader fs data_dir label_vocab "train" lang
         = Gen opened items None)
        /\ (forall bad rest e, tail = bad :: rest ->
              xnli_train_failure label_vocab bad = Some e ->
              _xnli_reader fs data_dir label_vocab "train" lang
              = Gen opened items (Some e)))
  /\ (forall (fs : FileSystem) data_dir label_vocab lang f header good tail,
        fs !! xnli_file data_dir "dev" lang = Some f ->
        f_rows f = header :: good ++ tail ->
        Forall (fun line => xnli_dev_failure label_vocab lang line = None)
          good ->
        let opened := [Open (xnli_file data_dir "dev" lang) "r"] in
        let items :=
          omap id
            (imap (fun k => xnli_dev_example label_vocab lang (S k)) good) in
        (tail = [] ->
         _xnli_reader fs data_dir label_vocab "dev" lang
         = Gen opened items None)
        /\ (forall bad rest e, tail = bad :: rest ->
              xnli_dev_failure label_vocab lang bad = Some e ->
              _xnli_reader fs data_dir label_vocab "dev" lang
              = Gen opened items (Some e))).
Proof.
  split; [exact xnli_train_remaps|].
  split; [exact xnli_train_stream | exact xnli_dev_stream].
Qed.

Lemma xnli_remap_train_only_witness :
  let vocab := label_vocab_of (labels xnli_entry) in
  _xnli_reader xnli_fs "x" vocab "train" "zh"
  = Gen [Open "x/multinli/multinli.train.zh.tsv" "r"]
      [Example "train-1" "p1" (Some "h1") 0;
       Example "train-2" "p2" (Some "h2") 2] None
  /\ _xnli_reader xnli_fs "x" vocab "dev" "zh"
     = Gen [Open "x/xnli.dev.tsv" "r"]
         [Example "dev-2" "p3" (Some "h3") 2]
         (Some (KeyError "contradictory"))
  /\ exists id,
       vocab !! "contradiction" = Some id
       /\ map label_id
            (g_items (_xnli_reader
                        ({[ "x/multinli/multinli.train.zh.tsv" :=
                              tsv [["premise"; "hypo"; "label"];
                                   ["p1"; "h1"; "contradictory"]] ]}
                         : FileSystem) "x" vocab "train" "zh"))
          = [id].
Proof.
  intros vocab.
  destruct xnli_remap_train_only as (Hremap & Htrain & Hdev).
  split; [|split].
  3: { apply (Hremap _ "x" "zh"
                (tsv [["premise"; "hypo"; "label"];
                      ["p1"; "h1"; "contradictory"]])
                ["premise"; "hypo"; "label"] ["p1"; "h1"; "contradictory"]);
       try reflexivity; try discriminate; vm_compute; lia. }
  - refine (proj1 (Htrain xnli_fs "x" vocab "zh"
                     (tsv [["premise"; "hypo"; "label"];
                           ["p1"; "h1"; "contradictory"];
                           ["p2"; "h2"; "neutral"]])
                     ["premise"; "hypo"; "label"]
                     [["p1"; "h1"; "contradictory"]; ["p2"; "h2"; "neutral"]]
                     [] _ _ _) _); try reflexivity.
    repeat constructor.
  - refine (proj2 (Hdev xnli_fs "x" vocab "zh"
                     (tsv [["language"; "gold_label"];
                           ["en"; "neutral"];
                           ["zh"; "neutral"; ""; ""; ""; ""; "p3"; "h3"];
                           ["zh"; "contradictory"; ""; ""; ""; ""; "p4"; "h4"]])
                     ["language"; "gold_label"]
                     [["en"; "neutral"];
                      ["zh"; "neutral"; ""; ""; ""; ""; "p3"; "h3"]]
                     [["zh"; "contradictory"; ""; ""; ""; ""; "p4"; "h4"]]
                     _ _ _)
                  ["zh"; "contradictory"; ""; ""; ""; ""; "p4"; "h4"] []
                  (KeyError "contradictory") _ _); try reflexivity.
    repeat constructor.
Defined.

(** On a dev file whose row is labelled [contradictory], the reader looks
    that spelling up in the declared vocabulary and raises [KeyError]. *)
Lemma xnli_dev_keeps_spelling :
  _xnli_reader (toy_fs 128) "data" (label_vocab_of (labels xnli_entry))
    "dev" "zh"
  = Gen [Open "data/xnli.dev.tsv" "r"] [] (Some (KeyError "contradictory")).
Proof. vm_compute. reflexivity. Qed.

(** C5 as stated fails in the dev partition: a full row of the language
    asked for, labelled [contradictory], is not yielded with the id of
    [contradiction]; the reader yields nothing. *)
Lemma xnli_dev_not_remapped : ~ remap_is_applied "dev".
Proof.
  intros Hclaim.
  destruct (Hclaim (toy_fs 128) "data" "zh"
              (tsv [["language"; "gold_label"];
                    ["zh"; "contradictory"; ""; ""; ""; ""; "premise";
                     "hypothesis"]])
              ["language"; "gold_label"]
              ["zh"; "contradictory"; ""; ""; ""; ""; "premise"; "hypothesis"])
    as (id & _ & Hitems); try reflexivity; try (vm_compute; lia).
  vm_compute in Hitems. discriminate Hitems.
Qed.

(* --------------------------------------------------------------------- *)
(* Training loop                                                         *)
(* --------------------------------------------------------------------- *)

Section Accumulation.
Local Open Scope nat_scope.
Context {B : Type}.
Variables (m : nat) (bs : list B).
Variables (g0 : list B) (s0 : list (list B)) (e0 : list nat).
Hypothesis Hm : 1 <= m.

Lemma mod_succ_wrap k :
  k mod m + 1 = m ->
  S k mod m = 0 /\ S k / m = S (k / m) /\ k - k mod m = (k / m) * m.
Proof.
  intros Hr. pose proof (Nat.div_mod_eq k m) as Hk.
  assert (S k = m * S (k / m) + 0) as Hk' by lia.
  split; [|split].
  - symmetry. apply (Nat.mod_unique (S k) m (S (k / m)) 0); lia.
  - symmetry. apply (Nat.div_unique (S k) m (S (k / m)) 0); lia.
  - lia.
Qed.

Lemma mod_succ_step k :
  k mod m + 1 < m ->
  S k mod m = S (k mod m) /\ S k / m = k / m.
Proof.
  intros Hr. pose proof (Nat.div_mod_eq k m) as Hk.
  assert (S k = m * (k / m) + S (k mod m)) as Hk' by lia.
  split.
  - symmetry. apply (Nat.mod_unique (S k) m (k / m) (S (k mod m))); lia.
  - symmetry. apply (Nat.div_unique (S k) m (k / m) (S (k mod m))); lia.
Qed.

(** The state after the first [k] micro-batches of an epoch. *)
Lemma epoch_prefix k :
  k <= length bs ->
  exists st,
    for_each (micro_batch (PyInt (Z.of_nat m))) (TrainState 0%Z g0 s0 e0)
      (take k bs) = inr st
    /\ batch_count st = Z.of_nat (k mod m)
    /\ steps st = s0 ++ map (cycle m bs) (seq 0 (k / m))
    /\ (k mod m ≠ 0 -> grad st = take (k mod m) (drop (k - k mod m) bs))
    /\ (k = 0 -> grad st = g0)
    /\ epochs st = e0.
Proof.
  induction k as [|k IH]; intros Hk.
  - eexists. split; [reflexivity|]. simpl.
    rewrite Nat.Div0.mod_0_l, Nat.Div0.div_0_l. simpl.
    rewrite app_nil_r. repeat split; done.
  - destruct IH as (st & Hrun & Hc & Hs & Hg & _ & He); [lia|].
    destruct (lookup_lt_is_Some_2 bs k) as [b Hb]; [lia|].
    rewrite (take_S_r _ _ _ Hb), for_each_app, Hrun. simpl.
    unfold micro_batch. rewrite py_ge_int, Hc.
    pose proof (Nat.mod_upper_bound k m) as Hr.
    assert (Hacc :
      (if decide (Z.of_nat (k mod m) = 0%Z) then [] else grad st) ++ [b]
      = take (S (k mod m)) (drop (k - k mod m) bs)).
    { pose proof (Nat.div_mod_eq k m).
      assert (drop (k - k mod m) bs !! (k mod m) = Some b) as Hd.
      { rewrite lookup_drop. rewrite <- Hb. f_equal. lia. }
      rewrite (take_S_r _ _ _ Hd). f_equal.
      case_decide as Hz.
      - assert (k mod m = 0) as -> by lia. done.
      - apply Hg. lia. }
    rewrite Hacc.
    destruct (Z.leb_spec (Z.of_nat m) (Z.of_nat (k mod m) + 1)%Z)
      as [Hfull|Hnot].
    + destruct (mod_succ_wrap k) as (Hmod & Hdiv & Hoff); [lia|].
      eexists. split; [reflexivity|]. simpl.
      rewrite Hmod, Hdiv. repeat split; try done.
      rewrite seq_S, map_app, app_assoc, <- Hs. simpl. f_equal.
      unfold cycle. rewrite <- Hoff. repeat f_equal; lia.
    + destruct (mod_succ_step k) as (Hmod & Hdiv); [lia|].
      eexists. split; [reflexivity|]. simpl.
      rewrite Hmod, Hdiv. repeat split; try done; try lia.
Qed.

(** The complete cycles of an epoch use its micro-batches in order and
    leave out the incomplete cycle at its end. *)
Lemma concat_full_cycles :
  concat (full_cycles m bs) = take (length bs - length bs mod m) bs.
Proof.
  unfold full_cycles.
  assert (Hq : forall q, q * m <= length bs ->
            concat (map (cycle m bs) (seq 0 q)) = take (q * m) bs).
  { induction q as [|q IH]; intros Hq; [done|].
    rewrite seq_S, map_app, concat_app, IH by lia. simpl.
    rewrite app_nil_r. unfold cycle.
    rewrite <- (take_drop (q * m) (take (m + q * m) bs)).
    rewrite take_take, Nat.min_l by lia. f_equal.
    rewrite skipn_firstn_comm. f_equal. lia. }
  pose proof (Nat.div_mod_eq (length bs) m).
  rewrite Hq by lia. f_equal. lia.
Qed.
End Accumulation.

Section Epochs.
Local Open Scope nat_scope.
Context {B : Type}.
Variables (m : nat) (dataloader : nat -> list B).
Hypothesis Hm : 1 <= m.

Lemma cycle_length (bs : list B) j :
  j < length bs / m -> length (cycle m bs j) = m.
Proof.
  intros Hj. unfold cycle. rewrite length_take, length_drop.
  pose proof (Nat.div_mod_eq (length bs) m).
  assert (S j * m <= length bs / m * m) by (apply Nat.mul_le_mono_r; lia).
  lia.
Qed.

Lemma epoch_loop_run (st : train_state B) (epoch : nat) :
  exists st',
    epoch_loop (PyInt (Z.of_nat m)) dataloader st epoch = inr st'
    /\ steps st' = steps st ++ full_cycles m (dataloader epoch)
    /\ epochs st' = epochs st ++ [epoch].
Proof.
  unfold epoch_loop.
  destruct (epoch_prefix m (dataloader epoch) (grad st) (steps st)
              (epochs st ++ [epoch]) Hm (length (dataloader epoch)))
    as (st' & Hrun & _ & Hs & _ & _ & He); [lia|].
  rewrite firstn_all in Hrun. eauto.
Qed.

Lemma train_loop_run :
  exists st,
    train_loop (PyInt (Z.of_nat m)) dataloader = inr st
    /\ steps st = full_cycles m (dataloader 0)
                  ++ full_cycles m (dataloader 1)
                  ++ full_cycles m (dataloader 2)
    /\ epochs st = [0; 1; 2].
Proof.
  unfold train_loop. simpl.
  destruct (epoch_loop_run train_init 0) as (st1 & -> & Hs1 & He1).
  destruct (epoch_loop_run st1 1) as (st2 & -> & Hs2 & He2).
  destruct (epoch_loop_run st2 2) as (st3 & -> & Hs3 & He3).
  exists st3. split; [done|].
  rewrite Hs3, Hs2, Hs1, He3, He2, He1. simpl.
  by rewrite <- !app_assoc.
Qed.
End Epochs.

(** The loop as it is written, for [macro_batch] an integer [macro >= 1]:
    after the first [k]
    micro-batches of an epoch the counter is [k mod macro], so it is 0
    after every [macro]-th micro-batch and always in [[0, macro)]; the
    optimizer has stepped [k / macro] times in the epoch, once per
    completed cycle, each time on the summed gradients of exactly the
    [macro] micro-batches of that cycle; and inside a cycle the gradient
    buffers hold every micro-batch since the cycle began. *)
Theorem accumulation_counter_invariant {B} (macro : Z) (bs g0 : list B)
    (s0 : list (list B)) (e0 : list nat) (k : nat) :
  1 <= macro ->
  (k <= length bs)%nat ->
  exists st,
    for_each (micro_batch (PyInt macro)) (TrainState 0 g0 s0 e0) (take k bs)
      = inr st
    /\ batch_count st = Z.of_nat (k mod Z.to_nat macro)
    /\ 0 <= batch_count st < macro
    /\ steps st
       = s0 ++ map (cycle (Z.to_nat macro) bs) (seq 0 (k / Z.to_nat macro))
    /\ (forall j, (j < k / Z.to_nat macro)%nat ->
          length (cycle (Z.to_nat macro) bs j) = Z.to_nat macro)
    /\ ((k mod Z.to_nat macro)%nat ≠ 0%nat ->
          grad st = take (k mod Z.to_nat macro)
                      (drop (k - k mod Z.to_nat macro) bs)).
Proof.
  intros Hmacro Hk.
  remember (Z.to_nat macro) as m eqn:Hmm.
  assert (Hm : (1 <= m)%nat) by lia.
  assert (Hmacro' : macro = Z.of_nat m) by lia.
  rewrite Hmacro'.
  destruct (epoch_prefix m bs g0 s0 e0 Hm k Hk)
    as (st & Hrun & Hc & Hs & Hg & _ & _).
  exists st. split; [done|]. split; [done|].
  pose proof (Nat.mod_upper_bound k m).
  split; [lia|]. split; [done|]. split; [|done].
  intros j Hj. apply cycle_length; [done|].
  assert (k / m <= length bs / m)%nat by (apply Nat.Div0.div_le_mono; lia).
  lia.
Qed.

Lemma accumulation_counter_invariant_witness :
  exists st,
    for_each (micro_batch (PyInt 2)) (TrainState 0 [] [] [0%nat])
      (take 5 [10; 20; 30; 40; 50]) = inr st
    /\ batch_count st = Z.of_nat (5 mod Z.to_nat 2)
    /\ 0 <= batch_count st < 2
    /\ steps st
       = [] ++ map (cycle (Z.to_nat 2) [10; 20; 30; 40; 50])
                 (seq 0 (5 / Z.to_nat 2))
    /\ (forall j, (j < 5 / Z.to_nat 2)%nat ->
          length (cycle (Z.to_nat 2) [10; 20; 30; 40; 50] j) = Z.to_nat 2)
    /\ ((5 mod Z.to_nat 2)%nat ≠ 0%nat ->
          grad st = take (5 mod Z.to_nat 2)
                      (drop (5 - 5 mod Z.to_nat 2) [10; 20; 30; 40; 50])).
Proof.
  apply (accumulation_counter_invariant 2 [10; 20; 30; 40; 50] [] []
           [0%nat] 5).
  - lia.
  - simpl. lia.
Defined.

(** A run of the inner loop on five micro-batches with [macro_batch = 2]:
    two optimizer steps, one micro-batch pending. *)
Example accumulation_run :
  for_each (micro_batch (PyInt 2)) (TrainState 0 [] [] [0%nat])
    [10; 20; 30; 40; 50]
  = inr (TrainState 1 [50] [[10; 20]; [30; 40]] [0%nat]).
Proof. reflexivity. Qed.

(** The loop as it is written, for [macro_batch] an integer [macro >= 1]:
    whatever state an epoch
    is entered in (counter not 0, gradients pending), the epoch starts from
    counter 0 with the list of optimizer steps unchanged; the steps it adds
    are exactly the complete cycles of its own micro-batches, which leave
    out the incomplete cycle at its end; its first micro-batch leaves only
    its own gradient in the buffers; and the whole training applies the
    complete cycles of its three epochs and nothing else. *)
Theorem epoch_start_discards_pending_gradients {B} (macro : Z)
    (dataloader : nat -> list B) (st : train_state B) (epoch : nat) :
  1 <= macro ->
  let m := Z.to_nat macro in
  let bs := dataloader epoch in
  let start := TrainState 0 (grad st) (steps st) (epochs st ++ [epoch]) in
  epoch_loop (PyInt macro) dataloader st epoch
    = for_each (micro_batch (PyInt macro)) start bs
  /\ (exists st',
        epoch_loop (PyInt macro) dataloader st epoch = inr st'
        /\ steps st' = steps st ++ full_cycles m bs
        /\ concat (full_cycles m bs)
           = take (length bs - length bs mod m) bs)
  /\ (forall b rest, bs = b :: rest ->
        exists st1, micro_batch (PyInt macro) start b = inr st1
                    /\ grad st1 = [b])
  /\ (exists final,
        train_loop (PyInt macro) dataloader = inr final
        /\ steps final = full_cycles m (dataloader 0%nat)
                         ++ full_cycles m (dataloader 1%nat)
                         ++ full_cycles m (dataloader 2%nat)).
Proof.
  intros Hmacro m bs start.
  assert (Hm : (1 <= m)%nat) by (unfold m; lia).
  assert (Hmm : macro = Z.of_nat m) by (unfold m; lia).
  split; [reflexivity|]. split; [|split].
  - rewrite Hmm.
    destruct (epoch_loop_run m dataloader Hm st epoch) as (st' & Hrun & Hs & _).
    exists st'. split; [done|]. split; [done|].
    by apply concat_full_cycles.
  - intros b rest _. unfold micro_batch, start.
    rewrite py_ge_int. simpl. destruct (macro <=? 0 + 1); eauto.
  - rewrite Hmm.
    destruct (train_loop_run m dataloader Hm) as (final & Hrun & Hs & _).
    eauto.
Qed.

Lemma epoch_start_discards_pending_gradients_witness :
  let dataloader := fun _ : nat => [10; 20; 30] in
  let st := TrainState 1 [30] [[10; 20]] [0%nat] in
  exists st',
    epoch_loop (PyInt 2) dataloader st 1 = inr st'
    /\ steps st' = steps st ++ full_cycles (Z.to_nat 2) (dataloader 1%nat)
    /\ concat (full_cycles (Z.to_nat 2) (dataloader 1%nat))
       = take (length (dataloader 1%nat)
               - length (dataloader 1%nat) mod Z.to_nat 2)%nat
           (dataloader 1%nat).
Proof.
  intros dataloader st.
  assert (Hmacro : 1 <= 2) by lia.
  exact (proj1 (proj2
    (epoch_start_discards_pending_gradients 2 dataloader st 1 Hmacro))).
Defined.

(** The second epoch of a run with three micro-batches per epoch and
    [macro_batch = 2]: the third micro-batch of the first epoch is dropped,
    the step of the second epoch sums its own first two micro-batches. *)
Example second_epoch_run :
  epoch_loop (PyInt 2) (fun e => [10 * Z.of_nat e; 10 * Z.of_nat e + 1;
                                  10 * Z.of_nat e + 2])
    (TrainState 1 [2] [[0; 1]] [0%nat]) 1
  = inr (TrainState 1 [12] [[0; 1]; [10; 11]] [0%nat; 1%nat]).
Proof. reflexivity. Qed.

(** No command line gives the loop an integer [macro_batch] other than
    the default 1: the option is declared without a type, so a value
    typed on the command line stays a string. *)
Lemma parsed_macro_batch cl args :
  parse_args cl = inr args ->
  match cl_macro_batch cl with
  | None => macro_batch args = PyInt 1
  | Some given => macro_batch args = PyStr given
  end.
Proof.
  unfold parse_args. intros Hargs.
  destruct (cl_problem cl); [|done]. destruct (cl_data_dir cl); [|done].
  case_decide; [|done]. simplify_eq. simpl. by destruct (cl_macro_batch cl).
Qed.

Lemma parsed_int_macro_batch_is_default cl args (n : Z) :
  parse_args cl = inr args -> macro_batch args = PyInt n ->
  n = 1 /\ cl_macro_batch cl = None.
Proof.
  intros Hargs Hn. pose proof (parsed_macro_batch cl args Hargs) as Hmb.
  destruct (cl_macro_batch cl); rewrite Hn in Hmb; by simplify_eq.
Qed.

(** Compared with a string, the counter raises on every micro-batch,
    whatever the state. *)
Lemma micro_batch_typed {B} (given : string) (st : train_state B) (b : B) :
  micro_batch (PyStr given) st b = inl counter_type_error.
Proof. reflexivity. Qed.

(** C3 fails on the code: [--macro_batch 2] reaches the loop as the string
    ['2'], and the comparison of the counter with it raises [TypeError] on
    every micro-batch, whatever the state.  The script started with it
    reads the train file and stops at the first micro-batch of the first
    epoch: no optimizer step is made, the counter is never reset, and the
    second micro-batch, after which the counter should be 0 and one step
    made (as the loop does with the integer 2), is never processed. *)
Theorem typed_macro_batch_breaks_accumulation :
  exists args,
    parse_args macro_batch_command = inr args
    /\ macro_batch args = PyStr "2"
    /\ (forall B (st : train_state B) (b : B),
          micro_batch (macro_batch args) st b = inl counter_type_error)
    /\ @main toy macro_batch_command (toy_fs 128)
       = ([Open "pre/bert_config.json" "r"; Open "pre/vocab.txt" "r";
           Open "pre/bert_model.pickle" "rb";
           Open "pre/pooler_model.pickle" "rb"; Open "data/train.tsv" "r"],
          inl counter_type_error)
    /\ for_each (micro_batch (PyInt 2)) (TrainState 0 [] [] [0%nat]) [10; 20]
       = inr (TrainState 0 [10; 20] [[10; 20]] [0%nat]).
Proof.
  eexists. split; [reflexivity|]. split; [reflexivity|].
  split; [intros B st b; apply micro_batch_typed|].
  split; [vm_compute|]; reflexivity.
Qed.

(** With a string for [macro_batch], an epoch without micro-batches only
    resets the counter, and any other epoch stops at its first
    micro-batch. *)
Lemma epoch_loop_typed {B} (given : string) (dataloader : nat -> list B)
    (st : train_state B) (epoch : nat) :
  epoch_loop (PyStr given) dataloader st epoch
  = match dataloader epoch with
    | [] => inr (TrainState 0 (grad st) (steps st) (epochs st ++ [epoch]))
    | _ :: _ => inl counter_type_error
    end.
Proof. unfold epoch_loop. by destruct (dataloader epoch). Qed.

(** C9 fails on the code: with [--macro_batch 2] no epoch that has a
    micro-batch comes to its end.  From any state, such an epoch resets
    the counter and stops at its first micro-batch in [TypeError], so a
    training of three micro-batches an epoch never reaches the start of
    the second epoch, where the gradient of the third micro-batch, left
    over by the incomplete cycle, should be dropped without a step (as
    the loop does with the integer 2). *)
Theorem typed_macro_batch_never_ends_an_epoch :
  exists args,
    parse_args macro_batch_command = inr args
    /\ (forall B (dataloader : nat -> list B) (st : train_state B) epoch,
          epoch_loop (macro_batch args) dataloader st epoch
          = match dataloader epoch with
            | [] => inr (TrainState 0 (grad st) (steps st)
                           (epochs st ++ [epoch]))
            | _ :: _ => inl counter_type_error
            end)
    /\ train_loop (macro_batch args) (fun _ : nat => [10; 20; 30])
       = inl counter_type_error
    /\ @main toy macro_batch_command odd_fs
       = ([Open "pre/bert_config.json" "r"; Open "pre/vocab.txt" "r";
           Open "pre/bert_model.pickle" "rb";
           Open "pre/pooler_model.pickle" "rb"; Open "data/train.tsv" "r"],
          inl counter_type_error)
    /\ train_loop (PyInt 2) (fun _ : nat => [10; 20; 30])
       = inr (TrainState 1 [30] [[10; 20]; [10; 20]; [10; 20]]
                [0; 1; 2]%nat).
Proof.
  eexists. split; [reflexivity|].
  split; [intros B dataloader st epoch; apply epoch_loop_typed|].
  split; [reflexivity|]. split; [vm_compute|]; reflexivity.
Qed.

Lemma for_each_micro_batch_epochs {B} (macro : pyval) (bs : list B) st st' :
  for_each (micro_batch macro) st bs = inr st' -> epochs st' = epochs st.
Proof.
  revert st. induction bs as [|b bs IH]; intros st; simpl.
  - by intros [= ->].
  - destruct (micro_batch macro st b) as [e|st1] eqn:Hb; [done|].
    intros Hrun. rewrite (IH _ Hrun).
    unfold micro_batch in Hb.
    destruct (py_ge _ macro) as [e|[]]; by simplify_eq.
Qed.

(** Whatever [macro_batch] is, a training loop that completes has run the
    epochs 0, 1 and 2. *)
Lemma train_loop_epochs {B} (macro : pyval) (dataloader : nat -> list B) st :
  train_loop macro dataloader = inr st -> epochs st = [0; 1; 2]%nat.
Proof.
  unfold train_loop. simpl. unfold epoch_loop at 1 2 3.
  destruct (for_each _ _ (dataloader 0%nat)) as [e|st1] eqn:H1; [done|].
  destruct (for_each _ _ (dataloader 1%nat)) as [e|st2] eqn:H2; [done|].
  destruct (for_each _ _ (dataloader 2%nat)) as [e|st3] eqn:H3; [done|].
  intros [= <-].
  apply for_each_micro_batch_epochs in H1, H2, H3. simpl in *.
  by rewrite H3, H2, H1.
Qed.

(** C2 fails on the code: the command line
    [pre out --problem mrpc --data_dir data --do_train --num_train_epochs 1]
    trains for the epochs 0, 1 and 2, three epochs and not [min 1 3]. *)
Theorem one_epoch_requested_three_run :
  exists args t o st,
    parse_args (toy_command true (Some "1") None) = inr args
    /\ num_train_epochs args = PyStr "1"
    /\ @main toy (toy_command true (Some "1") None) (toy_fs 512) = (t, inr o)
    /\ o_training o = Some st
    /\ epochs st = [0; 1; 2]%nat
    /\ length (epochs st) ≠ Nat.min 1 3.
Proof.
  eexists _, _, _, _. split; [reflexivity|]. split; [reflexivity|].
  split; [vm_compute; reflexivity|].
  repeat split; simpl; lia.
Qed.

(* --------------------------------------------------------------------- *)
(* Evaluation                                                            *)
(* --------------------------------------------------------------------- *)

Lemma eval_loop_snoc score bs b :
  eval_loop score (bs ++ [b]) = eval_batch score (eval_loop score bs) b.
Proof. unfold eval_loop. by rewrite foldl_app. Qed.

(** The totals of the loop: every sample and every hit of every batch. *)
Lemma eval_loop_totals score bs :
  total_samples (eval_loop score bs) = Z.of_nat (length (concat bs))
  /\ total_hits (eval_loop score bs)
     = foldr Z.add 0 (map (batch_hits score) bs).
Proof.
  induction bs as [|b bs [IHs IHh]] using rev_ind; [done|].
  rewrite eval_loop_snoc. simpl. rewrite IHs, IHh.
  rewrite concat_app, length_app, map_app, foldr_app. simpl.
  rewrite app_nil_r. split; [lia|].
  generalize (map (batch_hits score) bs) as l.
  induction l as [|x l IH]; simpl; lia.
Qed.

(** What the script prints as accuracy: the hits of the last batch over
    the samples of all batches. *)
Lemma eval_summary_accuracy score bs b :
  total_samples (eval_loop score (bs ++ [b])) ≠ 0 ->
  exists r,
    eval_summary (eval_loop score (bs ++ [b])) = inr r
    /\ samples_evaluated r = Z.of_nat (length (concat (bs ++ [b])))
    /\ accuracy r
       = (inject_Z (batch_hits score b)
          / inject_Z (Z.of_nat (length (concat (bs ++ [b])))))%Q.
Proof.
  intros Hn. unfold eval_summary. case_decide; [done|].
  rewrite <- (proj1 (eval_loop_totals score (bs ++ [b]))).
  rewrite eval_loop_snoc. simpl. eauto.
Qed.

(** C1 fails on the code: on a dev set of 33 samples in two batches, the
    first 32 predicted correctly and the last one not, the loop counts 32
    hits in 33 samples and the script reports accuracy 0, the hits of the
    last batch over 33. *)
Theorem accuracy_reports_last_batch_hits :
  let st := eval_loop toy_score [replicate 32 sample_hit; [sample_miss]] in
  total_samples st = 33
  /\ total_hits st = 32
  /\ exists r,
       eval_summary st = inr r
       /\ (accuracy r == 0)%Q
       /\ ~ (accuracy r
             == inject_Z (total_hits st) / inject_Z (total_samples st))%Q.
Proof.
  intros st. split; [reflexivity|]. split; [reflexivity|].
  eexists. split; [vm_compute; reflexivity|].
  split; [reflexivity|]. vm_compute. discriminate.
Qed.

(* --------------------------------------------------------------------- *)
(* Start-up and the trained classifier                                   *)
(* --------------------------------------------------------------------- *)

Section Startup.
Context `{Collaborators}.

Lemma parse_args_fields cl args :
  parse_args cl = inr args ->
  pretrained_dir args = cl_pretrained_dir cl
  /\ output_dir args = cl_output_dir cl
  /\ do_train args = cl_do_train cl
  /\ max_seq_length args = optional (cl_max_seq_length cl) (PyInt 128)
  /\ is_Some (_PROBLEMS !! problem args).
Proof.
  unfold parse_args.
  destruct (cl_problem cl) as [p|]; [|done].
  destruct (cl_data_dir cl) as [d|]; [|done].
  case_decide as Hp; [|done]. intros [= <-]. simpl.
  repeat split.
  unfold choices in Hp. rewrite !elem_of_cons, elem_of_nil in Hp.
  destruct Hp as [->|[->|[->|[->|[]]]]]; done.
Qed.

(** With integers on both sides the check raises its [ValueError]
    exactly when [max_seq_length] exceeds the limit. *)
Lemma check_seq_length_int (cfg : config) args (limit n : Z) :
  cfg !! "max_position_embeddings" = Some (PyInt limit) ->
  max_seq_length args = PyInt n ->
  check_seq_length cfg args
  = if limit <? n then inl seq_length_error else inr tt.
Proof.
  intros Hcfg Hn. unfold check_seq_length, py_getitem.
  by rewrite Hcfg, Hn, py_lt_int.
Qed.

(** With an integer limit and a [max_seq_length] given on the command
    line, a string, the comparison itself raises [TypeError]. *)
Lemma check_seq_length_str (cfg : config) args (limit : Z) (s : string) :
  cfg !! "max_position_embeddings" = Some (PyInt limit) ->
  max_seq_length args = PyStr s ->
  check_seq_length cfg args
  = inl (TypeError "'<' not supported between instances of 'int' and 'str'").
Proof.
  intros Hcfg Hs. unfold check_seq_length, py_getitem.
  by rewrite Hcfg, Hs.
Qed.

(** A failed check ends the run with only the configuration file
    opened. *)
Lemma startup_check_fails cl fs args f cfg e :
  parse_args cl = inr args ->
  fs !! config_path cl = Some f ->
  f_json f = Some cfg ->
  check_seq_length cfg args = inl e ->
  main cl fs = ([Open (config_path cl) "r"], inl e).
Proof.
  intros Hargs Hf Hjson Hcheck.
  destruct (parse_args_fields cl args Hargs) as (Hdir & _ & _ & _ & [p Hp]).
  unfold main, startup. rewrite Hargs. simpl.
  unfold py_getitem. rewrite Hp. simpl.
  unfold open_json. simpl. rewrite Hdir. fold (config_path cl).
  rewrite Hf, Hjson. simpl. by rewrite Hcheck.
Qed.

(** C7 fails on the code: started with [--max_seq_length 256] on a
    configuration whose [max_position_embeddings] is 128, the script
    opens the configuration file and ends in the [TypeError] of the
    comparison of an [int] with a [str], not in the [ValueError] of the
    check. *)
Theorem requested_seq_length_raises_type_error :
  main (toy_command false None (Some "256")) (toy_fs 128)
  = ([Open "pre/bert_config.json" "r"],
     inl (TypeError
            "'<' not supported between instances of 'int' and 'str'")).
Proof.
  eapply (startup_check_fails (toy_command false None (Some "256"))
            (toy_fs 128) _ (toy_config 128)); reflexivity.
Qed.

(** Left at its default 128, [max_seq_length] is an integer and the
    check works: a limit of 64 raises the [ValueError]. *)
Example default_seq_length_checked :
  main (toy_command false None None) (toy_fs 64)
  = ([Open "pre/bert_config.json" "r"], inl seq_length_error).
Proof.
  eapply (startup_check_fails (toy_command false None None)
            (toy_fs 64) _ (toy_config 64)); reflexivity.
Qed.

(** A requested length within the limit ends in the same [TypeError]. *)
Example short_seq_length_type_error :
  main (toy_command false None (Some "64")) (toy_fs 128)
  = ([Open "pre/bert_config.json" "r"],
     inl (TypeError
            "'<' not supported between instances of 'int' and 'str'")).
Proof.
  eapply (startup_check_fails (toy_command false None (Some "64"))
            (toy_fs 128) _ (toy_config 128)); reflexivity.
Qed.

Lemma bind_starts_with {A B} (m : M A) (f : A -> M B) ev :
  starts_with ev m -> starts_with ev (bind m f).
Proof.
  intros (t & r & ->). unfold bind.
  destruct r as [e|x]; [by eexists _, _|].
  destruct (f x) as [t' r']. by eexists _, _.
Qed.

Lemma startup_args cl fs t s :
  startup cl fs = (t, inr s) -> parse_args cl = inr (s_args s).
Proof.
  intros Hs. unfold startup, bind, lift, ret, raise in Hs.
  repeat (case_match; simplify_eq/=; try done).
Qed.

(** C10: once start-up has succeeded, a run without [--do_train] opens
    [{output_dir}/bert_classifier.pickle] for reading as its next step,
    whatever [--do_eval] and [--do_predict] are.  When the file does not
    exist the run ends there in [FileNotFoundError]; when it cannot be
    unpickled or the classifier rejects the state, the run ends there in
    that error; otherwise the state unpickled from the file is loaded into
    the classifier, and evaluation and prediction, where enabled, run on
    the classifier so loaded. *)
Theorem load_trained_when_not_training cl fs t s :
  startup cl fs = (t, inr s) ->
  cl_do_train cl = false ->
  main cl fs =
    match fs !! trained_path cl with
    | None =>
        (t ++ [Open (trained_path cl) "rb"],
         inl (FileNotFoundError (trained_path cl)))
    | Some f =>
        match f_pickle f with
        | None =>
            (t ++ [Open (trained_path cl) "rb"],
             inl (ExternalError "pickle.load"))
        | Some sd =>
            match load_state_dict (s_classifier s) sd with
            | inl e => (t ++ [Open (trained_path cl) "rb"], inl e)
            | inr loaded =>
                let '(t', r) := later_stages s fs loaded None in
                (t ++ Open (trained_path cl) "rb" :: t', r)
            end
        end
    end.
Proof.
  intros Hstart Htrain.
  pose proof (startup_args cl fs t s Hstart) as Hargs.
  destruct (parse_args_fields cl _ Hargs) as (_ & Hout & Hdo & _).
  unfold main. rewrite Hstart. simpl.
  unfold stages. rewrite Hdo, Htrain.
  unfold load_trained, classifier_pickle. rewrite Hout.
  fold (trained_path cl). unfold open_pickle. simpl.
  destruct (fs !! trained_path cl) as [f|]; simpl; [|done].
  destruct (f_pickle f) as [sd|]; simpl; [|done].
  destruct (load_state_dict (s_classifier s) sd) as [e|loaded]; simpl;
    [done|].
  by destruct (later_stages s fs loaded None).
Qed.

End Startup.

(** Start-up in the small world. *)
Example startup_toy_world :
  @startup toy (toy_command false None None) (toy_fs 128)
  = ([Open "pre/bert_config.json" "r"; Open "pre/vocab.txt" "r";
      Open "pre/bert_model.pickle" "rb"; Open "pre/pooler_model.pickle" "rb"],
     inr (@Session toy
            {| pretrained_dir := "pre"; output_dir := "out";
               batch_size := PyInt 32; max_seq_length := PyInt 128;
               do_lower_case := PyBool true; problem := "mrpc";
               data_dir := "data"; do_train := false; do_eval := false;
               do_predict := false; learning_rate := PyFloat (2 # 100000);
               num_train_epochs := PyInt 3; macro_batch := PyInt 1 |}
            (label_vocab_of ["0"; "1"]) _mrpc_reader
            {[ "max_position_embeddings" := PyInt 128;
               "hidden_size" := PyInt 8 ]} tt tt)).
Proof. reflexivity. Qed.

Lemma load_trained_when_not_training_witness :
  @main probe predict_command probe_fs
  = ([Open "pre/bert_config.json" "r"; Open "pre/bert_model.pickle" "rb";
      Open "pre/pooler_model.pickle" "rb";
      Open "out/bert_classifier.pickle" "rb";
      Open "out/test_results.tsv" "w"; Open "data/test.tsv" "r"],
     inr (Outcome None None (Some [[7 # 1]; [7 # 1]]%Q))).
Proof.
  etransitivity.
  - eapply (@load_trained_when_not_training probe predict_command probe_fs).
    + vm_compute. reflexivity.
    + reflexivity.
  - vm_compute. reflexivity.
Defined.

(** Without the saved classifier the same run ends at the load. *)
Example load_trained_absent :
  @main probe predict_command (toy_fs 128)
  = ([Open "pre/bert_config.json" "r"; Open "pre/bert_model.pickle" "rb";
      Open "pre/pooler_model.pickle" "rb";
      Open "out/bert_classifier.pickle" "rb"],
     inl (FileNotFoundError "out/bert_classifier.pickle")).
Proof. vm_compute. reflexivity. Qed.

(* ===================================================================== *)
(* Further properties                                                    *)
(* ===================================================================== *)

Lemma mrpc_file (data_dir partition : string) :
  partition ∈ ["train"; "dev"] ->
  ({[ "train" := data_dir +:+ "/train.tsv";
      "dev" := data_dir +:+ "/dev.tsv";
      "test" := data_dir +:+ "/test.tsv" ]} : gmap string string) !! partition
  = Some (corpus_file "mrpc" data_dir partition)
  /\ partition ≠ "test".
Proof.
  rewrite !elem_of_cons, elem_of_nil. intros [->|[->|[]]]; by simplify_map_eq.
Qed.


(** The mrpc reader on a labelled partition whose file is a header, rows
    it accepts, and then either nothing or a row it fails on. *)
Lemma mrpc_stream (fs : FileSystem) data_dir label_vocab partition f header
    good tail :
  partition ∈ ["train"; "dev"] ->
  fs !! corpus_file "mrpc" data_dir partition = Some f ->
  f_rows f = header :: good ++ tail ->
  Forall (fun line => mrpc_failure label_vocab line = None) good ->
  let opened := [Open (corpus_file "mrpc" data_dir partition) "r"] in
  let items := imap (fun k => mrpc_example label_vocab partition (S k)) good in
  (tail = [] ->
   _mrpc_reader fs data_dir label_vocab partition = Gen opened items None)
  /\ (forall bad rest e, tail = bad :: rest ->
        mrpc_failure label_vocab bad = Some e ->
        _mrpc_reader fs data_dir label_vocab partition
        = Gen opened items (Some e)).
Proof.
  intros Hpart Hf Hrows Hgood opened items.
  destruct (mrpc_file data_dir partition Hpart) as [Hname Htest].
  unfold _mrpc_reader. rewrite Hname. unfold for_enumerate, _read_tsv.
  rewrite Hf. simpl. rewrite Hrows.
  match goal with |- context [for_rows ?b _ _] => set (body := b) end.
  assert (Hok : forall i line, i ≠ 0%nat ->
            mrpc_failure label_vocab line = None ->
            body i line
            = inr (Some (mrpc_example label_vocab partition i line))).
  { intros i line Hi Hok. unfold body, mrpc_failure, mrpc_example in *.
    destruct (decide (i = 0%nat)); [done|].
    destruct (decide (length line < 5)%nat); [done|].
    rewrite !py_index_nth by lia.
    destruct (decide (partition = "test")); [done|].
    unfold py_getitem. by destruct (label_vocab !! nth 0 line ""). }
  assert (Hfail : forall i line e, i ≠ 0%nat ->
            mrpc_failure label_vocab line = Some e -> body i line = inl e).
  { intros i line e Hi Hbad. unfold body, mrpc_failure in *.
    destruct (decide (i = 0%nat)); [done|].
    destruct (decide (length line < 5)%nat) as [Hlen|Hlen].
    - simplify_eq. destruct (decide (length line <= 3)%nat).
      + by rewrite py_index_short.
      + rewrite py_index_nth by lia. rewrite py_index_short by lia. done.
    - rewrite !py_index_nth by lia.
      destruct (decide (partition = "test")); [done|].
      unfold py_getitem.
      by destruct (label_vocab !! nth 0 line ""); simplify_eq. }
  assert (Hrun : for_rows body 0 (header :: good) = (items, None)).
  { simpl. replace (body 0%nat header) with (@inr exn (option example) None)
      by done.
    rewrite (for_rows_total body (mrpc_example label_vocab partition));
      [done|].
    intros k x Hk. apply Hok; [lia|].
    rewrite Forall_forall in Hgood. apply Hgood.
    by eapply list_elem_of_lookup_2. }
  split.
  - intros ->. rewrite app_nil_r, Hrun. done.
  - intros bad rest e -> Hbad.
    change (header :: good ++ bad :: rest)
      with ((header :: good) ++ bad :: rest).
    rewrite for_rows_app, Hrun. simpl.
    rewrite (Hfail _ _ e) by done. by rewrite app_nil_r.
Qed.

(** X1: on the train or dev partition of mrpc, a file made of a header and
    rows with at least five columns and a label of the vocabulary gives
    exactly one example per row after the header, in order, and no
    error. *)
Theorem mrpc_labelled_rows (fs : FileSystem) data_dir label_vocab partition f
    header rows :
  partition ∈ ["train"; "dev"] ->
  fs !! corpus_file "mrpc" data_dir partition = Some f ->
  f_rows f = header :: rows ->
  Forall (fun line => mrpc_failure label_vocab line = None) rows ->
  _mrpc_reader fs data_dir label_vocab partition
  = Gen [Open (corpus_file "mrpc" data_dir partition) "r"]
      (imap (fun k => mrpc_example label_vocab partition (S k)) rows) None.
Proof.
  intros Hpart Hf Hrows Hgood.
  apply (mrpc_stream fs data_dir label_vocab partition f header rows []);
    try done.
  by rewrite app_nil_r.
Qed.

Lemma mrpc_labelled_rows_witness :
  _mrpc_reader (toy_fs 128) "data" (label_vocab_of ["0"; "1"]) "train"
  = Gen [Open "data/train.tsv" "r"]
      [Example "train-1" "a b" (Some "a b c") 1;
       Example "train-2" "d" (Some "e f") 0] None.
Proof.
  refine (mrpc_labelled_rows (toy_fs 128) "data" (label_vocab_of ["0"; "1"])
            "train" _ _ _ _ eq_refl eq_refl _).
  - apply list_elem_of_here.
  - repeat constructor.
Defined.

(** X2: on the train or dev partition of mrpc, the first row that is too
    short or labelled outside the vocabulary ends the stream with
    [IndexError] or [KeyError] of that label; the rows before it have been
    yielded and the rows after it are never looked at. *)
Theorem mrpc_first_bad_row_ends_stream (fs : FileSystem) data_dir label_vocab
    partition f header good bad rest e :
  partition ∈ ["train"; "dev"] ->
  fs !! corpus_file "mrpc" data_dir partition = Some f ->
  f_rows f = header :: good ++ bad :: rest ->
  Forall (fun line => mrpc_failure label_vocab line = None) good ->
  mrpc_failure label_vocab bad = Some e ->
  _mrpc_reader fs data_dir label_vocab partition
  = Gen [Open (corpus_file "mrpc" data_dir partition) "r"]
      (imap (fun k => mrpc_example label_vocab partition (S k)) good)
      (Some e).
Proof.
  intros Hpart Hf Hrows Hgood Hbad.
  by apply (mrpc_stream fs data_dir label_vocab partition f header good
              (bad :: rest) Hpart Hf Hrows Hgood) with bad rest.
Qed.

Lemma mrpc_first_bad_row_ends_stream_witness :
  _mrpc_reader (toy_fs 128) "data" {[ "1" := 1%nat ]} "train"
  = Gen [Open "data/train.tsv" "r"]
      [Example "train-1" "a b" (Some "a b c") 1] (Some (KeyError "0")).
Proof.
  refine (mrpc_first_bad_row_ends_stream (toy_fs 128) "data" {[ "1" := 1%nat ]}
            "train" _ _ [_] _ [] _ _ eq_refl eq_refl _ eq_refl).
  - apply list_elem_of_here.
  - repeat constructor.
Defined.

Lemma for_enumerate_trace {A B} (body : nat -> A -> exn + option B) src :
  g_trace (for_enumerate body src) = g_trace src.
Proof. unfold for_enumerate. by destruct (for_rows body 0 (g_items src)). Qed.

Lemma for_enumerate_empty {A B} (body : nat -> A -> exn + option B) t e :
  for_enumerate body (Gen t [] e) = Gen t [] e.
Proof. unfold for_enumerate. simpl. by destruct e. Qed.

Lemma partition_file_lookup (a b c partition : string) :
  partition ∈ ["train"; "dev"; "test"] ->
  ({[ "train" := a; "dev" := b; "test" := c ]} : gmap string string)
    !! partition
  = Some (if decide (partition = "train") then a
          else if decide (partition = "dev") then b else c).
Proof.
  rewrite !elem_of_cons, elem_of_nil.
  intros [->|[->|[->|[]]]]; by simplify_map_eq.
Qed.

(** The file a reader opens, and what it does without it. *)
Lemma reader_file name p (fs : FileSystem) data_dir label_vocab
    partition :
  _PROBLEMS !! name = Some p ->
  partition ∈ supported name ->
  let path := corpus_file name data_dir partition in
  g_trace (reader p fs data_dir label_vocab partition) = [Open path "r"]
  /\ (fs !! path = None ->
      reader p fs data_dir label_vocab partition
      = Gen [Open path "r"] [] (Some (FileNotFoundError path))).
Proof.
  intros Hp Hpart path. unfold path, corpus_file.
  apply problems_lookup in Hp as [[-> ->]|[[-> ->]|[[-> ->]|[-> ->]]]];
    unfold supported in Hpart; simpl in *.
  - unfold _xnli_reader.
    rewrite !elem_of_cons, elem_of_nil in Hpart.
    destruct Hpart as [->|[->|[]]]; simpl; rewrite for_enumerate_trace;
      unfold _read_tsv.
    + split; [by destruct (fs !! _)|]. intros ->. apply for_enumerate_empty.
    + split; [by destruct (fs !! _)|]. intros ->. apply for_enumerate_empty.
  - unfold _mnli_reader. rewrite partition_file_lookup by done.
    rewrite for_enumerate_trace. unfold _read_tsv.
    repeat case_decide; (split; [by destruct (fs !! _)|]);
      intros ->; apply for_enumerate_empty.
  - unfold _mrpc_reader. rewrite partition_file_lookup by done.
    rewrite for_enumerate_trace. unfold _read_tsv.
    repeat case_decide; (split; [by destruct (fs !! _)|]);
      intros ->; apply for_enumerate_empty.
  - unfold _cola_reader. rewrite partition_file_lookup by done.
    rewrite for_enumerate_trace. unfold _read_tsv.
    repeat case_decide; (split; [by destruct (fs !! _)|]);
      intros ->; apply for_enumerate_empty.
Qed.

(** X3: every reader of the registry, asked for a partition it supports,
    opens exactly one file, read-only, the one the corpus fixes for that
    partition; when the file does not exist the reader yields nothing and
    raises [FileNotFoundError] for that path. *)
Theorem reader_opens_its_file name p (fs : FileSystem) data_dir label_vocab
    partition :
  _PROBLEMS !! name = Some p ->
  partition ∈ supported name ->
  let path := corpus_file name data_dir partition in
  g_trace (reader p fs data_dir label_vocab partition) = [Open path "r"]
  /\ (fs !! path = None ->
      reader p fs data_dir label_vocab partition
      = Gen [Open path "r"] [] (Some (FileNotFoundError path))).
Proof. intros Hp Hpart. by apply reader_file. Qed.

Lemma reader_opens_its_file_witness :
  g_trace (reader mnli_entry (toy_fs 128) "data" ∅ "dev")
  = [Open "data/dev_matched.tsv" "r"]
  /\ (toy_fs 128 !! "data/dev_matched.tsv" = None ->
      reader mnli_entry (toy_fs 128) "data" ∅ "dev"
      = Gen [Open "data/dev_matched.tsv" "r"] []
          (Some (FileNotFoundError "data/dev_matched.tsv"))).
Proof.
  apply (reader_opens_its_file "mnli" mnli_entry (toy_fs 128) "data" ∅ "dev").
  - reflexivity.
  - apply list_elem_of_further, list_elem_of_here.
Defined.

(** Every label id a reader yields is what the vocabulary holds for some
    label. *)
Lemma reader_label_in_vocab name p (fs : FileSystem) data_dir
    (label_vocab : gmap string nat) partition ex :
  _PROBLEMS !! name = Some p ->
  ex ∈ g_items (reader p fs data_dir label_vocab partition) ->
  exists label, label_vocab !! label = Some (label_id ex).
Proof.
  intros Hp. revert ex. apply Forall_forall.
  apply problems_lookup in Hp as [[-> ->]|[[-> ->]|[[-> ->]|[-> ->]]]];
    simpl.
  - unfold _xnli_reader. repeat case_decide; [| |constructor];
      apply for_enumerate_Forall; intros i line y Hy; split_sum;
      unfold py_getitem in *;
      repeat match goal with
      | H : context [match ?o with Some _ => _ | None => _ end] |- _ =>
          destruct o eqn:?; simplify_eq/=
      end; eauto.
  - unfold _mnli_reader. destruct (_ !! partition); [|constructor].
    apply for_enumerate_Forall; intros i line y Hy; split_sum;
      unfold py_getitem in *;
      repeat match goal with
      | H : context [match ?o with Some _ => _ | None => _ end] |- _ =>
          destruct o eqn:?; simplify_eq/=
      end; eauto.
  - unfold _mrpc_reader. destruct (_ !! partition); [|constructor].
    apply for_enumerate_Forall; intros i line y Hy; split_sum;
      unfold py_getitem in *;
      repeat match goal with
      | H : context [match ?o with Some _ => _ | None => _ end] |- _ =>
          destruct o eqn:?; simplify_eq/=
      end; eauto.
  - unfold _cola_reader. destruct (_ !! partition); [|constructor].
    apply for_enumerate_Forall; intros i line y Hy; split_sum;
      unfold py_getitem in *;
      repeat match goal with
      | H : context [match ?o with Some _ => _ | None => _ end] |- _ =>
          destruct o eqn:?; simplify_eq/=
      end; eauto.
Qed.

(** X4: with the vocabulary of its corpus, whatever the partition and the
    file, every example a reader yields carries the index of a declared
    label: a label id is always a valid class index. *)
Theorem reader_label_id_is_class_index name p (fs : FileSystem) data_dir
    partition ex :
  _PROBLEMS !! name = Some p ->
  ex ∈ g_items (reader p fs data_dir (label_vocab_of (labels p)) partition) ->
  (label_id ex < length (labels p))%nat
  /\ exists label, labels p !! label_id ex = Some label.
Proof.
  intros Hp Hex.
  destruct (reader_label_in_vocab name p fs data_dir _ partition ex Hp Hex)
    as [label Hlabel].
  apply (label_vocab_of_lookup _ (problems_labels_NoDup name p Hp)) in Hlabel.
  split; [by eapply lookup_lt_Some|eauto].
Qed.

Lemma reader_label_id_is_class_index_witness :
  let ex := Example "train-1" "a b" (Some "a b c") 1 in
  (label_id ex < length (labels mrpc_entry))%nat
  /\ exists label, labels mrpc_entry !! label_id ex = Some label.
Proof.
  intros ex.
  apply (reader_label_id_is_class_index "mrpc" mrpc_entry (toy_fs 128) "data"
           "train" ex).
  - reflexivity.
  - assert (g_items (reader mrpc_entry (toy_fs 128) "data"
                       (label_vocab_of (labels mrpc_entry)) "train")
            = [ex; Example "train-2" "d" (Some "e f") 0]) as ->
      by (vm_compute; reflexivity).
    apply list_elem_of_here.
Defined.

(** X5: the cola reader treats the first row as a header only in the test
    partition.  On train and dev a file of rows it accepts gives one
    example per row, the first row included, numbered from 0; on test the
    first row is dropped unread and the others are numbered from 1 and
    labelled with the placeholder. *)
Theorem cola_header_only_in_test (fs : FileSystem) data_dir label_vocab
    partition f :
  partition ∈ ["train"; "dev"; "test"] ->
  fs !! corpus_file "cola" data_dir partition = Some f ->
  Forall (fun line => cola_failure label_vocab partition line = None)
    (if decide (partition = "test") then tail (f_rows f) else f_rows f) ->
  _cola_reader fs data_dir label_vocab partition
  = Gen [Open (corpus_file "cola" data_dir partition) "r"]
      (if decide (partition = "test")
       then imap (fun k => cola_example label_vocab partition (S k))
              (tail (f_rows f))
       else imap (cola_example label_vocab partition) (f_rows f))
      None.
Proof.
  intros Hpart Hf Hgood.
  unfold _cola_reader. rewrite partition_file_lookup by done.
  assert (Hpath : (if decide (partition = "train")
                   then data_dir +:+ "/train.tsv"
                   else if decide (partition = "dev")
                        then data_dir +:+ "/dev.tsv"
                        else data_dir +:+ "/test.tsv")
                  = corpus_file "cola" data_dir partition).
  { unfold corpus_file. by repeat case_decide. }
  rewrite Hpath. unfold for_enumerate, _read_tsv. rewrite Hf. simpl.
  match goal with |- context [for_rows ?b _ _] => set (body := b) end.
  assert (Hok : forall i line,
            ¬ (partition = "test" /\ i = 0%nat) ->
            cola_failure label_vocab partition line = None ->
            body i line
            = inr (Some (cola_example label_vocab partition i line))).
  { intros i line Hi Hok. unfold body, cola_failure, cola_example in *.
    destruct (decide (partition = "test" /\ i = 0%nat)); [done|].
    destruct (decide (partition = "test")).
    - destruct (decide (length line < 2)%nat); [done|].
      rewrite py_index_nth by lia. simpl. unfold py_getitem.
      by destruct (label_vocab !! "0").
    - destruct (decide (length line < 4)%nat); [done|].
      rewrite !py_index_nth by lia. simpl. unfold py_getitem.
      by destruct (label_vocab !! nth 1 line ""). }
  destruct (decide (partition = "test")) as [Htest|Htest].
  - destruct (f_rows f) as [|header rows]; [done|]. simpl in *.
    replace (body 0%nat header) with (@inr exn (option example) None).
    2:{ unfold body. by rewrite decide_True. }
    rewrite (for_rows_total body (cola_example label_vocab partition));
      [done|].
    intros k x Hk. apply Hok; [lia|].
    rewrite Forall_forall in Hgood. apply Hgood.
    by eapply list_elem_of_lookup_2.
  - rewrite (for_rows_total body (cola_example label_vocab partition));
      [done|].
    intros k x Hk. apply Hok; [tauto|].
    rewrite Forall_forall in Hgood. apply Hgood.
    by eapply list_elem_of_lookup_2.
Qed.

Lemma cola_header_only_in_test_witness :
  _cola_reader cola_fs "cola" (label_vocab_of ["0"; "1"]) "train"
  = Gen [Open "cola/train.tsv" "r"]
      [Example "train-0" "The book was read." None 1;
       Example "train-1" "The book read." None 0] None.
Proof.
  refine (cola_header_only_in_test cola_fs "cola"
            (label_vocab_of ["0"; "1"]) "train" _ _ eq_refl _).
  - apply list_elem_of_here.
  - repeat constructor.
Defined.

(** The same corpus read as test data: the header is dropped. *)
Example cola_test_rows :
  _cola_reader cola_fs "cola" (label_vocab_of ["0"; "1"]) "test"
  = Gen [Open "cola/test.tsv" "r"]
      [Example "test-1" "The pub drank." None 0] None.
Proof. vm_compute. reflexivity. Qed.

(** X6: every example of the xnli dev partition comes from a row after the
    header whose first column is the language asked for; its texts are
    columns 6 and 7 of that row and its guid numbers the row by its
    position in the whole file, rows of other languages included. *)
Theorem xnli_dev_language_filter (fs : FileSystem) data_dir
    (label_vocab : gmap string nat) lang ex :
  ex ∈ g_items (_xnli_reader fs data_dir label_vocab "dev" lang) ->
  exists f i line,
    fs !! (data_dir +:+ "/xnli.dev.tsv") = Some f
    /\ f_rows f !! i = Some line
    /\ i ≠ 0%nat
    /\ line !! 0%nat = Some lang
    /\ guid ex = "dev-" +:+ str_of_nat i
    /\ line !! 6%nat = Some (text_a ex)
    /\ line !! 7%nat = text_b ex.
Proof.
  unfold _xnli_reader. simpl. unfold _read_tsv, for_enumerate.
  destruct (fs !! (data_dir +:+ "/xnli.dev.tsv")) as [f|] eqn:Hf; simpl.
  - destruct (for_rows _ 0 (f_rows f)) as [ys e] eqn:Hrows. simpl.
    intros Hex. replace ys with (ys, e).1 in Hex by done.
    rewrite <- Hrows in Hex.
    apply for_rows_indexed in Hex as (k & line & Hline & Hbody).
    simpl in Hbody. split_sum. unfold py_index in *.
    repeat match goal with
    | H : context [match ?o with Some _ => _ | None => _ end] |- _ =>
        destruct o eqn:?; simplify_eq/=
    end.
    exists f, k, line. repeat split; try done.
    match goal with H : ¬ _ ≠ _ |- _ => apply dec_stable in H; by subst end.
  - intros Hex. by apply elem_of_nil in Hex.
Qed.

Lemma xnli_dev_language_filter_witness :
  let ex := Example "dev-1" "premise" (Some "hypothesis") 7 in
  exists f i line,
    toy_fs 128 !! ("data" +:+ "/xnli.dev.tsv") = Some f
    /\ f_rows f !! i = Some line
    /\ i ≠ 0%nat
    /\ line !! 0%nat = Some "zh"
    /\ guid ex = "dev-" +:+ str_of_nat i
    /\ line !! 6%nat = Some (text_a ex)
    /\ line !! 7%nat = text_b ex.
Proof.
  intros ex.
  apply (xnli_dev_language_filter (toy_fs 128) "data"
           {[ "contradictory" := 7%nat ]} "zh" ex).
  assert (g_items (_xnli_reader (toy_fs 128) "data"
                     {[ "contradictory" := 7%nat ]} "dev" "zh") = [ex])
    as -> by (vm_compute; reflexivity).
  apply list_elem_of_here.
Defined.

Lemma numbered_guid_inj (partition : string) :
  Inj (=) (=) (fun j : nat => partition +:+ "-" +:+ str_of_nat j).
Proof.
  intros a b Hab. apply (inj (String.app partition)) in Hab.
  apply (inj (String.app "-")) in Hab. by apply (inj pretty) in Hab.
Qed.

Lemma for_enumerate_numbered {A} (body : nat -> A -> exn + option example)
    (partition : string) src :
  (forall j x y, body j x = inr (Some y) ->
     guid y = partition +:+ "-" +:+ str_of_nat j) ->
  NoDup (map guid (g_items (for_enumerate body src))).
Proof.
  intros Hb. unfold for_enumerate.
  pose proof (for_rows_sublist body guid
                (fun j => partition +:+ "-" +:+ str_of_nat j)
                (g_items src) 0 Hb) as Hsub.
  destruct (for_rows body 0 (g_items src)) as [ys e]. simpl in *.
  eapply sublist_NoDup; [|exact Hsub].
  pose proof (numbered_guid_inj partition) as Hinj.
  apply (NoDup_fmap_2 (fun j : nat => partition +:+ "-" +:+ str_of_nat j)),
    NoDup_seq.
Qed.

(** X7: the xnli, mrpc and cola readers number their examples by row, so
    the guids of one stream are pairwise distinct, whatever the file
    holds. *)
Theorem numbered_guids_distinct name p (fs : FileSystem) data_dir
    (label_vocab : gmap string nat) partition :
  name ∈ ["xnli"; "mrpc"; "cola"] ->
  _PROBLEMS !! name = Some p ->
  NoDup (map guid (g_items (reader p fs data_dir label_vocab partition))).
Proof.
  intros Hname Hp.
  apply problems_lookup in Hp as [[-> ->]|[[-> ->]|[[-> ->]|[-> ->]]]];
    simpl.
  - unfold _xnli_reader. repeat case_decide; [| |constructor];
      apply (for_enumerate_numbered _ partition);
      intros j x y Hy; by split_sum.
  - rewrite !elem_of_cons, elem_of_nil in Hname.
    destruct Hname as [?|[?|[?|[]]]]; discriminate.
  - unfold _mrpc_reader. destruct (_ !! partition); [|constructor].
    apply (for_enumerate_numbered _ partition).
    intros j x y Hy; by split_sum.
  - unfold _cola_reader. destruct (_ !! partition); [|constructor].
    apply (for_enumerate_numbered _ partition).
    intros j x y Hy; by split_sum.
Qed.

Lemma numbered_guids_distinct_witness :
  NoDup (map guid (g_items (reader cola_entry cola_fs "cola"
                              (label_vocab_of ["0"; "1"]) "train"))).
Proof.
  apply (numbered_guids_distinct "cola" cola_entry cola_fs "cola"
           (label_vocab_of ["0"; "1"]) "train").
  - do 2 apply list_elem_of_further. apply list_elem_of_here.
  - reflexivity.
Defined.

(** The mnli reader takes its guids from column 0 of the file, so two rows
    with the same id give two examples with the same guid. *)
Example mnli_guids_repeat :
  let row := ["7"; ""; ""; ""; ""; ""; ""; ""; "a"; "b"; "neutral"] in
  map guid (g_items (_mnli_reader {[ "d/train.tsv" := tsv [[]; row; row] ]}
                       "d" (label_vocab_of ["contradiction"; "entailment";
                                            "neutral"]) "train"))
  = ["train-7"; "train-7"].
Proof. vm_compute. reflexivity. Qed.

Lemma for_rows_prefix {A B C} (body : nat -> A -> exn + option B)
    (h : B -> C) (k : A -> C) items i :
  (forall j x y, body j x = inr (Some y) -> h y = k x) ->
  (forall j x, body j x ≠ inr None) ->
  map h (for_rows body i items).1 `prefix_of` map k items.
Proof.
  intros Hy Hskip. revert i.
  induction items as [|x rest IH]; intros i; simpl; [done|].
  specialize (IH (S i)).
  destruct (body i x) as [e|[y|]] eqn:Hb; simpl.
  - apply prefix_nil.
  - destruct (for_rows body (S i) rest) as [ys e]. simpl in *.
    rewrite (Hy _ _ _ Hb). by apply prefix_cons.
  - by destruct (Hskip i x).
Qed.

Lemma map_imap_ext {A B C} (g : nat -> A -> B) (h : B -> C) (k : A -> C) l :
  (forall i x, h (g i x) = k x) -> map h (imap g l) = map k l.
Proof.
  revert g. induction l as [|x l IH]; intros g Hg; simpl; [done|].
  rewrite Hg. f_equal. apply IH. intros i y. apply Hg.
Qed.

Section FeatsReader.
Context `{Collaborators}.

(** X8: [feats_reader] opens nothing of its own and never skips, reorders
    or invents a sample: the guids and label ids it yields are a prefix of
    those of its reader, and the whole of them, followed by the reader's
    own ending, when the encoder accepts every example. *)
Theorem feats_reader_keeps_order (g : gen example) seq_length tokenizer :
  let out := feats_reader g seq_length tokenizer in
  g_trace out = g_trace g
  /\ map feats_key (g_items out) `prefix_of` map example_key (g_items g)
  /\ ((forall ex, ex ∈ g_items g ->
         exists enc,
           example_to_feats (text_a ex) (text_b ex) seq_length tokenizer
           = inr enc) ->
      map feats_key (g_items out) = map example_key (g_items g)
      /\ g_exn out = g_exn g).
Proof.
  intros out. unfold out, feats_reader. split; [apply for_enumerate_trace|].
  unfold for_enumerate.
  match goal with |- context [for_rows ?b _ _] => set (body := b) end.
  assert (Hkey : forall j x y, body j x = inr (Some y) ->
                   feats_key y = example_key x).
  { intros j x y. unfold body.
    destruct (example_to_feats _ _ _ _); [done|]. by intros [= <-]. }
  assert (Hskip : forall j x, body j x ≠ inr None).
  { intros j x. unfold body. by destruct (example_to_feats _ _ _ _). }
  split.
  - pose proof (for_rows_prefix body feats_key example_key (g_items g) 0
                  Hkey Hskip) as Hpre.
    by destruct (for_rows body 0 (g_items g)).
  - intros Hall.
    set (f := fun (_ : nat) (ex : example) =>
           match example_to_feats (text_a ex) (text_b ex) seq_length tokenizer
           with
           | inr enc => Feats (enc_input_ids enc) (enc_input_type_ids enc)
                          (enc_input_mask enc) (label_id ex) (guid ex)
           | inl _ => Feats [] [] [] (label_id ex) (guid ex)
           end).
    rewrite (for_rows_total body f).
    + simpl. split; [|done].
      apply map_imap_ext. intros i x. unfold f.
      by destruct (example_to_feats _ _ _ _).
    + intros k x Hx. unfold body, f.
      destruct (Hall x) as [enc ->]; [by eapply list_elem_of_lookup_2|done].
Qed.
End FeatsReader.

Lemma feats_reader_keeps_order_witness :
  let g := _mrpc_reader (toy_fs 128) "data" (label_vocab_of ["0"; "1"])
             "train" in
  map feats_key (g_items (@feats_reader toy g (PyInt 128) tt))
  = map example_key (g_items g)
  /\ g_exn (@feats_reader toy g (PyInt 128) tt) = g_exn g.
Proof.
  intros g.
  apply (proj2 (proj2 (@feats_reader_keeps_order toy g (PyInt 128) tt))).
  intros ex _. by eexists.
Defined.

(** X9: the corpora argparse accepts are exactly the keys of the registry,
    so the registry lookup of an accepted command line never fails. *)
Theorem choices_are_registry_keys :
  (forall name, name ∈ choices <-> is_Some (_PROBLEMS !! name))
  /\ (forall cl args, parse_args cl = inr args ->
        exists p, py_getitem _PROBLEMS (problem args) = inr p).
Proof.
  assert (Hkeys : forall name, name ∈ choices <-> is_Some (_PROBLEMS !! name)).
  { intros name. split.
    - unfold choices. rewrite !elem_of_cons, elem_of_nil.
      intros [->|[->|[->|[->|[]]]]]; by eexists.
    - intros [p Hp]. unfold choices. rewrite !elem_of_cons.
      apply problems_lookup in Hp as [[-> _]|[[-> _]|[[-> _]|[-> _]]]]; tauto. }
  split; [done|].
  intros cl args Hargs. unfold parse_args in Hargs.
  destruct (cl_problem cl) as [name|]; [|done].
  destruct (cl_data_dir cl); [|done].
  case_decide as Hname; [|done]. simplify_eq. simpl.
  apply Hkeys in Hname as [p Hp]. exists p. unfold py_getitem. by rewrite Hp.
Qed.

Lemma choices_are_registry_keys_witness :
  exists p, py_getitem _PROBLEMS "mrpc" = inr p.
Proof.
  exact (proj2 choices_are_registry_keys (toy_command false None None) _
           eq_refl).
Defined.

Section Rejected.
Context `{Collaborators}.

(** X10: a command line argparse rejects (no [--problem], no [--data_dir],
    or a corpus outside the choices) ends the run with exit status 2
    before any file is opened. *)
Theorem rejected_command_line_opens_nothing cl (fs : FileSystem) :
  cl_problem cl = None \/ cl_data_dir cl = None
  \/ (exists name, cl_problem cl = Some name /\ name ∉ choices) ->
  main cl fs = ([], inl (SystemExit 2)).
Proof.
  intros Hbad. unfold main, startup.
  assert (parse_args cl = inl (SystemExit 2)) as ->; [|done].
  unfold parse_args.
  destruct Hbad as [->|[Hd|(name & -> & Hname)]]; [done| |].
  - rewrite Hd. by destruct (cl_problem cl).
  - destruct (cl_data_dir cl); [|done]. by rewrite decide_False.
Qed.
End Rejected.

Lemma rejected_command_line_opens_nothing_witness :
  @main toy unknown_problem_command (toy_fs 128) = ([], inl (SystemExit 2)).
Proof.
  apply (@rejected_command_line_opens_nothing toy).
  right. right. exists "sst". split; [reflexivity|].
  unfold choices. rewrite !not_elem_of_cons.
  repeat split; try discriminate. apply not_elem_of_nil.
Defined.

Lemma label_vocab_of_size ls :
  NoDup ls -> size (label_vocab_of ls) = length ls.
Proof.
  induction ls as [|x ls IH] using rev_ind; intros Hnd;
    [apply map_size_empty|].
  pose proof Hnd as Hnd'.
  apply NoDup_app in Hnd' as (Hls & Hnot & _).
  rewrite label_vocab_of_snoc, length_app. simpl.
  rewrite map_size_insert_None; [rewrite IH by done; lia|].
  destruct (label_vocab_of ls !! x) as [i|] eqn:Hx; [|done].
  apply (label_vocab_of_lookup ls Hls) in Hx.
  apply list_elem_of_lookup_2 in Hx.
  destruct (Hnot x Hx). apply list_elem_of_here.
Qed.

(** X11: for every corpus of the registry the vocabulary has one entry per
    declared label, so [len(label_vocab)], the number of classes the
    classifier is built with, is the number of declared labels. *)
Theorem num_classes_is_label_count name p :
  _PROBLEMS !! name = Some p ->
  size (label_vocab_of (labels p)) = length (labels p).
Proof.
  intros Hp. apply label_vocab_of_size. by eapply problems_labels_NoDup.
Qed.

Lemma num_classes_is_label_count_witness :
  size (label_vocab_of (labels xnli_entry)) = length (labels xnli_entry).
Proof. apply (num_classes_is_label_count "xnli"). reflexivity. Defined.

(** With a repeated label the later index wins and the vocabulary is
    smaller than the list. *)
Example label_vocab_of_repeated :
  label_vocab_of ["a"; "b"; "a"] !! "a" = Some 2%nat
  /\ size (label_vocab_of ["a"; "b"; "a"]) = 2%nat.
Proof. split; reflexivity. Qed.

Section Pretrained.
Context `{Collaborators}.


(** X13: start-up on a parsed command line reads the configuration first:
    without [bert_config.json] the run ends in [FileNotFoundError], and
    with a configuration that has no [max_position_embeddings] it ends in
    [KeyError]; in both cases nothing but the configuration file has been
    opened. *)
Theorem startup_needs_configuration cl (fs : FileSystem) args :
  parse_args cl = inr args ->
  (fs !! config_path cl = None ->
   main cl fs = ([Open (config_path cl) "r"],
                 inl (FileNotFoundError (config_path cl))))
  /\ (forall f (cfg : config),
        fs !! config_path cl = Some f -> f_json f = Some cfg ->
        cfg !! "max_position_embeddings" = None ->
        main cl fs = ([Open (config_path cl) "r"],
                      inl (KeyError "max_position_embeddings"))).
Proof.
  intros Hargs. split.
  - intros Hf.
    destruct (parse_args_fields cl args Hargs) as (Hdir & _ & _ & _ & [p Hp]).
    unfold main, startup. rewrite Hargs. simpl.
    unfold py_getitem. rewrite Hp. simpl.
    unfold open_json. simpl. rewrite Hdir. fold (config_path cl).
    by rewrite Hf.
  - intros f cfg Hf Hjson Hkey.
    apply (startup_check_fails cl fs args f cfg); try done.
    unfold check_seq_length, py_getitem. by rewrite Hkey.
Qed.
End Pretrained.


Lemma startup_needs_configuration_witness :
  @main toy (toy_command false None None) ∅
  = ([Open "pre/bert_config.json" "r"],
     inl (FileNotFoundError "pre/bert_config.json")).
Proof.
  refine (proj1 (@startup_needs_configuration toy
                   (toy_command false None None) ∅ _ eq_refl) eq_refl).
Defined.

(** X14: an integer [macro_batch] of 1 or less (0 and negative values
    included) disables accumulation: every micro-batch is followed by an
    optimizer step on its own gradient alone and the counter is 0 after
    each of them. *)
Theorem small_macro_batch_steps_every_batch {B} (macro : Z) (bs g0 : list B)
    (s0 : list (list B)) (e0 : list nat) :
  macro <= 1 ->
  for_each (micro_batch (PyInt macro)) (TrainState 0 g0 s0 e0) bs
  = inr (TrainState 0 (from_option (fun b => [b]) g0 (last bs))
           (s0 ++ map (fun b => [b]) bs) e0).
Proof.
  intros Hmacro. revert g0 s0.
  induction bs as [|b bs IH]; intros g0 s0; simpl.
  - by rewrite app_nil_r.
  - unfold micro_batch at 1. rewrite py_ge_int. simpl.
    replace (macro <=? 0 + 1) with true by (symmetry; apply Z.leb_le; lia).
    simpl. rewrite IH. f_equal.
    f_equal; [|by rewrite <- app_assoc].
    rewrite (last_cons b bs). by destruct (last bs).
Qed.

Lemma small_macro_batch_steps_every_batch_witness :
  for_each (micro_batch (PyInt 0)) (TrainState 0 [] [] [0%nat]) [10; 20; 30]
  = inr (TrainState 0 (from_option (fun b => [b]) [] (last [10; 20; 30]))
           ([] ++ map (fun b => [b]) [10; 20; 30]) [0%nat]).
Proof.
  apply (small_macro_batch_steps_every_batch 0 [10; 20; 30] [] [] [0%nat]).
  lia.
Defined.

Lemma full_cycles_length {B} (m : nat) (bs : list B) :
  length (full_cycles m bs) = (length bs / m)%nat.
Proof. unfold full_cycles. by rewrite length_map, length_seq. Qed.

(** X15: with an integer [macro_batch >= 1] the training makes
    [n0 / macro + n1 / macro + n2 / macro] optimizer steps, [n0], [n1],
    [n2] being the numbers of micro-batches of the three epochs; when
    every epoch has fewer micro-batches than [macro_batch] it completes
    without a single optimizer step. *)
Theorem optimizer_step_count {B} (macro : Z) (dataloader : nat -> list B) :
  1 <= macro ->
  exists st,
    train_loop (PyInt macro) dataloader = inr st
    /\ length (steps st)
       = (length (dataloader 0%nat) / Z.to_nat macro
          + length (dataloader 1%nat) / Z.to_nat macro
          + length (dataloader 2%nat) / Z.to_nat macro)%nat
    /\ ((forall epoch, Z.of_nat (length (dataloader epoch)) < macro) ->
        steps st = []).
Proof.
  intros Hmacro.
  assert (Hm : (1 <= Z.to_nat macro)%nat) by lia.
  destruct (train_loop_run (Z.to_nat macro) dataloader Hm)
    as (st & Hrun & Hsteps & _).
  rewrite Z2Nat.id in Hrun by lia.
  exists st. split; [done|].
  assert (Hlen : length (steps st)
       = (length (dataloader 0%nat) / Z.to_nat macro
          + length (dataloader 1%nat) / Z.to_nat macro
          + length (dataloader 2%nat) / Z.to_nat macro)%nat).
  { rewrite Hsteps, !length_app, !full_cycles_length. lia. }
  split; [done|].
  intros Hshort. apply length_zero_iff_nil. rewrite Hlen.
  pose proof (Hshort 0%nat). pose proof (Hshort 1%nat).
  pose proof (Hshort 2%nat).
  rewrite !Nat.div_small by lia. done.
Qed.

Lemma optimizer_step_count_witness :
  exists st,
    train_loop (PyInt 4) (fun _ : nat => [10; 20; 30]) = inr st
    /\ length (steps st)
       = (length [10; 20; 30] / Z.to_nat 4
          + length [10; 20; 30] / Z.to_nat 4
          + length [10; 20; 30] / Z.to_nat 4)%nat
    /\ ((forall epoch : nat, Z.of_nat (length [10; 20; 30]) < 4) ->
        steps st = []).
Proof.
  apply (optimizer_step_count 4 (fun _ : nat => [10; 20; 30])). lia.
Defined.

(** A training set of three micro-batches with [macro_batch = 4]: three
    epochs, no optimizer step. *)
Example training_without_updates :
  train_loop (PyInt 4) (fun _ : nat => [10; 20; 30])
  = inr (TrainState 3 [10; 20; 30] [] [0; 1; 2]%nat).
Proof. reflexivity. Qed.

(** X16: a [--macro_batch] given on the command line is a string, and the
    comparison of the counter with it raises [TypeError] on the first
    micro-batch of the first epoch, before any optimizer step. *)
Theorem typed_macro_batch_aborts_training {B} cl args (given : string)
    (dataloader : nat -> list B) b rest :
  parse_args cl = inr args ->
  cl_macro_batch cl = Some given ->
  dataloader 0%nat = b :: rest ->
  train_loop (macro_batch args) dataloader
  = inl (TypeError "'>=' not supported between instances of 'int' and 'str'").
Proof.
  intros Hargs Hgiven Hdl. unfold parse_args in Hargs.
  destruct (cl_problem cl); [|done]. destruct (cl_data_dir cl); [|done].
  case_decide; [|done]. simplify_eq. simpl. rewrite Hgiven. simpl.
  unfold train_loop. simpl. unfold epoch_loop at 1. by rewrite Hdl.
Qed.

Lemma typed_macro_batch_aborts_training_witness :
  exists args,
    parse_args macro_batch_command = inr args
    /\ train_loop (macro_batch args) (fun _ : nat => [10; 20; 30])
       = inl (TypeError
                "'>=' not supported between instances of 'int' and 'str'").
Proof.
  eexists. split; [reflexivity|].
  eapply (typed_macro_batch_aborts_training macro_batch_command _ "2"
            (fun _ : nat => [10; 20; 30]) 10 [20; 30]); reflexivity.
Defined.

(** The same command line through the whole script. *)
Example typed_macro_batch_run :
  @main toy macro_batch_command (toy_fs 512)
  = ([Open "pre/bert_config.json" "r"; Open "pre/vocab.txt" "r";
      Open "pre/bert_model.pickle" "rb"; Open "pre/pooler_model.pickle" "rb";
      Open "data/train.tsv" "r"],
     inl (TypeError
            "'>=' not supported between instances of 'int' and 'str'")).
Proof. vm_compute. reflexivity. Qed.

Lemma batch_hits_bounds score b : 0 <= batch_hits score b <= Z.of_nat (length b).
Proof.
  unfold batch_hits. split; [lia|].
  apply inj_le. apply length_filter.
Qed.

(** The loop keeps its counters ordered: the hits of the last batch are
    among the total hits, which are among the samples. *)
Lemma eval_loop_ordered score bs :
  let st := eval_loop score bs in
  0 <= total_hits st <= total_samples st
  /\ forall h, hits st = Some h -> 0 <= h <= total_hits st.
Proof.
  induction bs as [|b bs IH] using rev_ind; simpl.
  - split; [done|]. intros h Hh. discriminate.
  - rewrite eval_loop_snoc. simpl in *. destruct IH as [IH _].
    pose proof (batch_hits_bounds score b).
    split; [lia|]. intros h [= <-]. lia.
Qed.

Lemma Qdiv_Z_bounds (a b n : Z) :
  0 <= a <= b -> b <= n -> 0 < n ->
  (0 <= inject_Z a / inject_Z n)%Q
  /\ (inject_Z a / inject_Z n <= inject_Z b / inject_Z n)%Q
  /\ (inject_Z b / inject_Z n <= 1)%Q.
Proof.
  intros Hab Hbn Hn.
  assert (Hq : (0 < inject_Z n)%Q).
  { change (inject_Z 0 < inject_Z n)%Q. by rewrite <- Zlt_Qlt. }
  split; [|split].
  - apply Qle_shift_div_l; [done|]. rewrite Qmult_0_l.
    change (inject_Z 0 <= inject_Z a)%Q. rewrite <- Zle_Qle. lia.
  - apply Qle_shift_div_r; [done|].
    unfold Qdiv. rewrite <- Qmult_assoc, (Qmult_comm (/ _)), Qmult_inv_r.
    + rewrite Qmult_1_r. rewrite <- Zle_Qle. lia.
    + intros Hz. rewrite Hz in Hq. by apply Qlt_irrefl in Hq.
  - apply Qle_shift_div_r; [done|]. rewrite Qmult_1_l.
    rewrite <- Zle_Qle. lia.
Qed.

(** X17: whenever evaluation reports, the number of samples it prints is
    the sum of the batch sizes, and the accuracy it prints lies between 0
    and the share of correct predictions over all batches, which is at
    most 1: the report never overstates the accuracy. *)
Theorem eval_report_bounds score bs r :
  eval_summary (eval_loop score bs) = inr r ->
  let st := eval_loop score bs in
  samples_evaluated r = Z.of_nat (length (concat bs))
  /\ (0 <= accuracy r)%Q
  /\ (accuracy r <= inject_Z (total_hits st) / inject_Z (total_samples st))%Q
  /\ (inject_Z (total_hits st) / inject_Z (total_samples st) <= 1)%Q.
Proof.
  intros Hr st. unfold eval_summary in Hr. fold st in Hr.
  case_decide as Hn; [done|].
  destruct (hits st) as [h|] eqn:Hh; [|done]. simplify_eq. simpl.
  destruct (eval_loop_ordered score bs) as [Hth Hhits]. fold st in Hth, Hhits.
  specialize (Hhits h Hh).
  split; [apply eval_loop_totals|].
  apply Qdiv_Z_bounds; lia.
Qed.

Lemma eval_report_bounds_witness :
  let bs := [replicate 32 sample_hit; [sample_miss]] in
  let st := eval_loop toy_score bs in
  exists r,
    eval_summary st = inr r
    /\ samples_evaluated r = Z.of_nat (length (concat bs))
    /\ (0 <= accuracy r)%Q
    /\ (accuracy r <= inject_Z (total_hits st) / inject_Z (total_samples st))%Q
    /\ (inject_Z (total_hits st) / inject_Z (total_samples st) <= 1)%Q.
Proof.
  intros bs st. eexists. split; [vm_compute; reflexivity|].
  apply (eval_report_bounds toy_score bs). vm_compute. reflexivity.
Defined.

(** X18: evaluation ends in [ZeroDivisionError] exactly when the dev stream
    holds no sample at all (no batch, or empty batches only), and reports
    otherwise; the unbound [hits] is never reached. *)
Theorem eval_needs_a_sample score bs :
  (concat bs = [] ->
   eval_summary (eval_loop score bs)
   = inl (ZeroDivisionError "float division by zero"))
  /\ (concat bs ≠ [] -> exists r, eval_summary (eval_loop score bs) = inr r).
Proof.
  pose proof (proj1 (eval_loop_totals score bs)) as Hn.
  unfold eval_summary. split.
  - intros Hempty. rewrite Hempty in Hn. simpl in Hn. by rewrite decide_True.
  - intros Hsome. rewrite decide_False.
    2:{ rewrite Hn. destruct (concat bs); [done|]. simpl. lia. }
    destruct bs as [|b bs _] using rev_ind; [done|].
    rewrite eval_loop_snoc. simpl. eauto.
Qed.

Lemma eval_needs_a_sample_witness :
  eval_summary (eval_loop toy_score [[]; []])
  = inl (ZeroDivisionError "float division by zero").
Proof. apply (proj1 (eval_needs_a_sample toy_score [[]; []])). reflexivity. Defined.

Lemma Qdiv_Z_eq (a b n : Z) :
  0 < n -> (inject_Z a / inject_Z n == inject_Z b / inject_Z n)%Q <-> a = b.
Proof.
  intros Hn. unfold Qeq, Qdiv, Qmult, Qinv, inject_Z. simpl.
  destruct n as [|n|n]; try lia. simpl. split; [|by intros ->].
  intros Heq. nia.
Qed.

Lemma hits_sum_shift score (l : list (list feats)) acc :
  foldr Z.add acc (map (batch_hits score) l)
  = acc + foldr Z.add 0 (map (batch_hits score) l).
Proof. induction l as [|x l IH]; simpl; [lia|]. rewrite IH. lia. Qed.

Lemma hits_sum_zero score (l : list (list feats)) :
  0 <= foldr Z.add 0 (map (batch_hits score) l)
  /\ (foldr Z.add 0 (map (batch_hits score) l) = 0
      <-> Forall (fun b => batch_hits score b = 0) l).
Proof.
  induction l as [|x l [IHpos IH]]; simpl.
  - split; [lia|]. split; [constructor|done].
  - pose proof (batch_hits_bounds score x). split; [lia|].
    rewrite Forall_cons, <- IH. lia.
Qed.

(** X19: the accuracy evaluation prints equals the share of correct
    predictions over all batches exactly when no batch before the last one
    holds a correct prediction; in particular it is right when the dev set
    fits into one batch. *)
Theorem eval_accuracy_right_iff score front b :
  concat (front ++ [b]) ≠ [] ->
  let st := eval_loop score (front ++ [b]) in
  exists r,
    eval_summary st = inr r
    /\ ((accuracy r == inject_Z (total_hits st) / inject_Z (total_samples st))%Q
        <-> Forall (fun b' => batch_hits score b' = 0) front).
Proof.
  intros Hsome st.
  pose proof (eval_loop_totals score (front ++ [b])) as [Hn Hh].
  fold st in Hn, Hh.
  assert (Hpos : 0 < total_samples st).
  { rewrite Hn. destruct (concat (front ++ [b])); [done|]. simpl. lia. }
  assert (Hlast : hits st = Some (batch_hits score b)).
  { unfold st. by rewrite eval_loop_snoc. }
  unfold eval_summary. rewrite decide_False by lia. rewrite Hlast.
  eexists. split; [done|]. simpl. rewrite Qdiv_Z_eq by done.
  rewrite Hh, map_app, foldr_app. simpl. rewrite Z.add_0_r, hits_sum_shift.
  rewrite <- (proj2 (hits_sum_zero score front)). lia.
Qed.

Lemma eval_accuracy_right_iff_witness :
  let st := eval_loop toy_score ([] ++ [[sample_hit; sample_miss]]) in
  exists r,
    eval_summary st = inr r
    /\ ((accuracy r == inject_Z (total_hits st) / inject_Z (total_samples st))%Q
        <-> Forall (fun b' => batch_hits toy_score b' = 0) []).
Proof.
  apply (eval_accuracy_right_iff toy_score [] [sample_hit; sample_miss]).
  simpl. discriminate.
Defined.

Lemma train_supported name p : _PROBLEMS !! name = Some p -> "train" ∈ supported name.
Proof.
  intros _. unfold supported. case_decide; apply list_elem_of_here.
Qed.

Lemma parse_args_flags cl args :
  parse_args cl = inr args ->
  do_eval args = cl_do_eval cl /\ do_predict args = cl_do_predict cl.
Proof.
  unfold parse_args.
  destruct (cl_problem cl); [|done]. destruct (cl_data_dir cl); [|done].
  case_decide; [|done]. by intros [= <-].
Qed.

Section Stages.
Context `{Collaborators}.

(** X20: prediction opens [test_results.tsv] for writing before it reads
    anything of the corpus, so the file is created or emptied even when
    the test data cannot be read; when it completes it has written one
    line per sample of the batches, in order. *)
Theorem predict_one_line_per_sample (s : session) (fs : FileSystem)
    (classifier : Model) :
  let args := s_args s in
  let batches :=
    batcher (feats_reader
               (s_reader s fs (data_dir args) (s_label_vocab s) "test")
               (max_seq_length args) (s_tokenizer s)) (batch_size args) in
  starts_with (Open (output_dir args +:+ "/test_results.tsv") "w")
    (predict_stage s fs classifier)
  /\ forall lines,
       (predict_stage s fs classifier).2 = inr lines ->
       lines = map (softmax classifier) (concat (g_items batches))
       /\ length lines = length (concat (g_items batches)).
Proof.
  intros args batches. unfold predict_stage. fold args. fold batches.
  unfold for_batches. simpl. split; [by eexists _, _|].
  intros lines. destruct (g_exn batches); [done|]. intros [= <-].
  rewrite <- concat_map. by rewrite length_map.
Qed.

(** X21: training reads the train file of the corpus, and it opens
    [bert_classifier.pickle] for writing only after the three epochs have
    completed: a training stage that ends before that point ends in an
    error with nothing but the train file opened. *)
Theorem training_saves_after_three_epochs name p (s : session)
    (fs : FileSystem) t r :
  _PROBLEMS !! name = Some p ->
  s_reader s = reader p ->
  train_stage s fs = (t, r) ->
  let train_file := Open (corpus_file name (data_dir (s_args s)) "train") "r" in
  let save := Open (classifier_pickle (s_args s)) "wb" in
  (t = [train_file] /\ exists e, r = inl e)
  \/ (t = [train_file; save]
      /\ exists samples dataloader st,
           DataLoader samples (batch_size (s_args s)) = inr dataloader
           /\ Adam (s_classifier s) (learning_rate (s_args s)) = inr tt
           /\ train_loop (macro_batch (s_args s)) dataloader = inr st
           /\ epochs st = [0; 1; 2]%nat
           /\ r = match pickle_dump fs (classifier_pickle (s_args s))
                          (fit (s_classifier s) (steps st)) with
                  | inl e => inl e
                  | inr _ => inr (fit (s_classifier s) (steps st), st)
                  end).
Proof.
  intros Hp Hreader. unfold train_stage. rewrite Hreader.
  unfold list_of_gen, feats_reader. rewrite for_enumerate_trace.
  rewrite (proj1 (reader_file name p fs (data_dir (s_args s))
                    (s_label_vocab s) "train" Hp (train_supported name p Hp))).
  unfold bind, lift, emit, ret.
  destruct (g_exn _); [intros [= <- <-]; left; eauto|].
  destruct (DataLoader _ _) as [e|dl] eqn:Hdl; [intros [= <- <-]; left; eauto|].
  destruct (Adam _ _) as [e|[]] eqn:Hadam; [intros [= <- <-]; left; eauto|].
  destruct (train_loop _ dl) as [e|st] eqn:Hloop;
    [intros [= <- <-]; left; eauto|].
  pose proof (train_loop_epochs _ _ _ Hloop) as Hepochs.
  simpl.
  destruct (pickle_dump _ _ _) as [e|[]] eqn:Hdump; intros [= <- <-]; right;
    (split; [done|]); eexists _, dl, st;
    (split; [eassumption|]); repeat split; try done;
    by rewrite Hdump.
Qed.

(** X22: a run with none of [--do_train], [--do_eval], [--do_predict] only
    loads the saved classifier after start-up: it opens no corpus file,
    writes nothing and reports nothing. *)
Theorem run_without_stage_flags cl (fs : FileSystem) t s f sd loaded :
  startup cl fs = (t, inr s) ->
  cl_do_train cl = false -> cl_do_eval cl = false ->
  cl_do_predict cl = false ->
  fs !! trained_path cl = Some f ->
  f_pickle f = Some sd ->
  load_state_dict (s_classifier s) sd = inr loaded ->
  main cl fs = (t ++ [Open (trained_path cl) "rb"],
                inr (Outcome None None None)).
Proof.
  intros Hstart Htrain Heval Hpredict Hf Hsd Hload.
  pose proof (startup_args cl fs t s Hstart) as Hargs.
  destruct (parse_args_fields cl _ Hargs) as (_ & Hout & Hdo & _).
  destruct (parse_args_flags cl _ Hargs) as [He Hpr].
  unfold main. rewrite Hstart. simpl.
  unfold stages, later_stages. rewrite Hdo, Htrain, He, Heval, Hpr, Hpredict.
  unfold load_trained, classifier_pickle. rewrite Hout.
  fold (trained_path cl). unfold open_pickle. simpl.
  rewrite Hf, Hsd. simpl. rewrite Hload. reflexivity.
Qed.
End Stages.

Lemma predict_one_line_per_sample_witness :
  let lines := [[1 # 2; 1 # 2]; [1 # 2; 1 # 2]]%Q in
  (@predict_stage toy toy_session (toy_fs 128) tt).2 = inr lines
  /\ length lines = 2%nat.
Proof.
  intros lines.
  assert (Hrun : (@predict_stage toy toy_session (toy_fs 128) tt).2
                 = inr lines) by (vm_compute; reflexivity).
  split; [exact Hrun|].
  exact (proj2 (proj2 (@predict_one_line_per_sample toy toy_session
                         (toy_fs 128) tt) lines Hrun)).
Defined.

(** Prediction in the small world: the result file is opened first. *)
Example predict_toy_world :
  (@predict_stage toy toy_session (toy_fs 128) tt).1
  = [Open "out/test_results.tsv" "w"; Open "data/test.tsv" "r"].
Proof. vm_compute. reflexivity. Qed.

Lemma training_saves_after_three_epochs_witness :
  let stage := @train_stage toy toy_session (toy_fs 128) in
  let train_file := Open (corpus_file "mrpc" "data" "train") "r" in
  let save := Open "out/bert_classifier.pickle" "wb" in
  (stage.1 = [train_file] /\ exists e, stage.2 = inl e)
  \/ (stage.1 = [train_file; save]
      /\ exists samples dataloader st,
           @DataLoader toy samples (PyInt 32) = inr dataloader
           /\ @Adam toy tt (PyFloat (2 # 100000)) = inr tt
           /\ train_loop (PyInt 1) dataloader = inr st
           /\ epochs st = [0; 1; 2]%nat
           /\ stage.2 = match @pickle_dump toy (toy_fs 128)
                                "out/bert_classifier.pickle"
                                (@fit toy tt (steps st)) with
                        | inl e => inl e
                        | inr _ => inr (@fit toy tt (steps st), st)
                        end).
Proof.
  apply (@training_saves_after_three_epochs toy "mrpc" mrpc_entry toy_session
           (toy_fs 128)).
  - reflexivity.
  - reflexivity.
  - apply surjective_pairing.
Defined.

(** Training in the small world: the train file, then the save. *)
Example training_toy_world :
  (@train_stage toy toy_session (toy_fs 128)).1
  = [Open "data/train.tsv" "r"; Open "out/bert_classifier.pickle" "wb"].
Proof. vm_compute. reflexivity. Qed.

(** Where the output directory cannot be written, the three epochs run
    and the run ends in the error of the save. *)
Example training_cannot_save :
  @main strict (learning_rate_command None) (toy_fs 128)
  = ([Open "pre/bert_config.json" "r"; Open "pre/bert_model.pickle" "rb";
      Open "pre/pooler_model.pickle" "rb"; Open "data/train.tsv" "r";
      Open "out/bert_classifier.pickle" "wb"],
     inl (ExternalError "pickle.dump")).
Proof. vm_compute. reflexivity. Qed.

(** A learning rate typed on the command line is a string, which the
    optimizer rejects before the first epoch. *)
Example training_typed_learning_rate :
  @main strict (learning_rate_command (Some "0.001")) (toy_fs 128)
  = ([Open "pre/bert_config.json" "r"; Open "pre/bert_model.pickle" "rb";
      Open "pre/pooler_model.pickle" "rb"; Open "data/train.tsv" "r"],
     inl (TypeError
            "'<=' not supported between instances of 'float' and 'str'")).
Proof. vm_compute. reflexivity. Qed.

(** Training without a train file: one failed open, nothing written. *)
Example training_without_data :
  @train_stage toy toy_session ∅
  = ([Open "data/train.tsv" "r"], inl (FileNotFoundError "data/train.tsv")).
Proof. vm_compute. reflexivity. Qed.

Lemma run_without_stage_flags_witness :
  @main toy (toy_command false None None) trained_fs
  = ([Open "pre/bert_config.json" "r"; Open "pre/vocab.txt" "r";
      Open "pre/bert_model.pickle" "rb"; Open "pre/pooler_model.pickle" "rb"]
     ++ [Open "out/bert_classifier.pickle" "rb"],
     inr (Outcome None None None)).
Proof.
  eapply (@run_without_stage_flags toy (toy_command false None None)
            trained_fs _ _ toy_pickle ∅ tt).
  - vm_compute. reflexivity.
  - reflexivity.
  - reflexivity.
  - reflexivity.
  - reflexivity.
  - reflexivity.
  - reflexivity.
Defined.
